(** * Multisensor dashboard: threshold evaluation, occupancy estimate, trend forecast

  A shallow embedding of the algorithmic core of the dashboard:
  - [Dashboard.check_for_warnings]   (app.py, lines 163-247),
  - [Sensor_Data.calculate_occupancy] (src/sensor_data.py, lines 61-85),
  - [Dashboard.predict_data]         (app.py, lines 711-782),
  - the series preparation of [Dashboard.show_current_data]
    (app.py, lines 288-315),
  and of what surrounds it:
  - [Sensor_Data.update_occupancy], [fetch_live_data] and
    [create_sensor_dict] (src/sensor_data.py, lines 87-246),
  - the value panel of [Dashboard.show_current_data] (app.py, lines 321-367),
    [show_sensor_gauge] (509-591), the series of [display_combined_graph]
    (610-619), [stream_data] (925-928) and [store_training_data] (470-507).

  Conventions of the embedding.
  - A Python float is an exact rational ([Q]); the one non-finite float the
    code can meet, the quotient 0/0 of the regression, is [NaN] in
    [pyfloat].  Rounding error of binary floating point is not modelled
    there.  Where a statement pins a value that [round] takes to an
    integer, the occupancy estimate is modelled again in IEEE-754 binary64
    ([Binary64], [OccupancyBinary64]), every operation rounded to nearest,
    ties to even.
  - A naive [datetime] is the number of microseconds since an arbitrary
    midnight ([Z]); a [timedelta] is a number of microseconds.  Naive
    datetimes have neither leap seconds nor time zones, so this is exact.
  - A Python exception is a value [Raise e] of the [result] type. *)

From Stdlib Require Import ZArith QArith Qround Lia Lqa Ascii.
From Stdlib Require SpecFloat.
From stdpp Require Import gmap strings list sorting.

Local Close Scope Q_scope.
Local Open Scope Z_scope.

(** ** Python values, exceptions and arithmetic *)

Module Py.

Inductive exn : Type :=
| ValueError
| TypeError
| IndexError
| KeyError
| ZeroDivisionError
| OverflowError
| FileNotFoundError.

Inductive result (A : Type) : Type :=
| Ok (a : A)
| Raise (e : exn).
Arguments Ok {A} a.
Arguments Raise {A} e.

#[global] Instance result_ret : MRet result := fun _ a => Ok a.
#[global] Instance result_bind : MBind result := fun _ _ f m =>
  match m with
  | Ok a => f a
  | Raise e => Raise e
  end.
#[global] Instance result_fmap : FMap result := fun _ _ f m =>
  match m with
  | Ok a => Ok (f a)
  | Raise e => Raise e
  end.

(** What a sensor's [current_value] (or the [value] argument of the
    threshold check) can hold: [None] (the initial value), a string that
    is not a number literal (the state ['unknown'] of the live source is
    [PStr "unknown"]), or a number.  An int, a float and a numeric string
    all behave alike under [float(...)] and are [PNum]. *)
Inductive pyvalue : Type :=
| PNone
| PStr (s : string)
| PNum (q : Q).

(** [value == 'unknown'] *)
Definition is_unknown (v : pyvalue) : bool :=
  match v with
  | PStr s => bool_decide (s = "unknown")
  | _ => false
  end.

(** [float(value)]; a [PStr] is, as said above, no number literal. *)
Definition float (v : pyvalue) : result Q :=
  match v with
  | PNone => Raise TypeError
  | PStr _ => Raise ValueError
  | PNum q => Ok q
  end.

(** [x < y] on numbers; [x > y] is [Qlt_bool y x]. *)
Definition Qlt_bool (x y : Q) : bool := negb (Qle_bool y x).

(** [int(x)]: truncation toward zero. *)
Definition int (x : Q) : Z := Z.quot (Qnum x) (Zpos (Qden x)).

(** [round(x)] with one argument: nearest integer, ties to the even one. *)
Definition round (x : Q) : Z :=
  let f := Qfloor x in
  let r := (x - inject_Z f)%Q in
  if Qlt_bool r (1 # 2) then f
  else if Qlt_bool (1 # 2) r then f + 1
  else if Z.even f then f else f + 1.

(** [a / b] on floats: Python raises on a zero divisor. *)
Definition div (a b : Q) : result Q :=
  if Qeq_bool b 0 then Raise ZeroDivisionError else Ok (a / b)%Q.

(** [l[i]] for a non-negative index. *)
Definition index {A} (l : list A) (i : nat) : result A :=
  match l !! i with
  | Some a => Ok a
  | None => Raise IndexError
  end.

(** [l[-1]] *)
Definition index_last {A} (l : list A) : result A :=
  match last l with
  | Some a => Ok a
  | None => Raise IndexError
  end.

(** [d[k]] on a dict *)
Definition getitem {A} (d : gmap string A) (k : string) : result A :=
  match d !! k with
  | Some a => Ok a
  | None => Raise KeyError
  end.

(** A float that may be NaN. *)
Inductive pyfloat : Type :=
| NaN
| Fin (q : Q).

Definition fadd (a b : pyfloat) : pyfloat :=
  match a, b with
  | Fin x, Fin y => Fin (x + y)%Q
  | _, _ => NaN
  end.

Definition fsub (a b : pyfloat) : pyfloat :=
  match a, b with
  | Fin x, Fin y => Fin (x - y)%Q
  | _, _ => NaN
  end.

Definition fmul (a b : pyfloat) : pyfloat :=
  match a, b with
  | Fin x, Fin y => Fin (x * y)%Q
  | _, _ => NaN
  end.

(** [max(0, p)]: the builtin keeps its first argument unless the second
    compares greater; every comparison with NaN is false. *)
Definition max0 (p : pyfloat) : Q :=
  match p with
  | Fin q => if Qlt_bool 0 q then q else 0%Q
  | NaN => 0%Q
  end.

End Py.
Import Py.

(** ** Threshold evaluation (app.py, [check_for_warnings]) *)

Module Thresholds.

(** One entry of the table: tier name to (bound, message). *)
Abbreviation tiers := (gmap string (Z * string)).

(** The local dictionary [warnings] of the function. *)
Definition warnings : gmap string tiers :=
  <["Temperature" :=
      <["too_low" := (18, "It's too cold to concentrate. Consider turning up the heat.")]>
      (<["too_high" := (26, "It's too hot to concentrate. Consider opening a window.")]> ∅)]>
  (<["Humidity" :=
      <["too_low" := (30, "The air is too dry. Consider increasing ventilation or opening a window.")]>
      (<["too_high" := (60, "The air is too humid. Consider opening a window.")]> ∅)]>
  (<["CO2" :=
      <["too_high" := (1000, "CO2 levels are high. Open a window for fresh air.")]> ∅]>
  (<["IAQ" :=
      <["too_high" := (100, "Indoor Air Quality is poor. Consider increasing ventilation or opening a window.")]> ∅]>
  (<["UV Index" :=
      <["too_high" := (6, "UV Index is high. Consider closing the blinds or staying out of direct sunlight.")]> ∅]>
  (<["Microphone Noise Level" :=
      <["too_high" := (80, "Noise levels are high. Consider reducing the noise or moving to a quieter space.")]> ∅]>
  (<["Pressure" :=
      <["too_low" := (980, "Atmospheric pressure is low. It might feel stuffy. Consider opening a window.")]>
      (<["too_high" := (1030, "Atmospheric pressure is high. Consider opening a window to ventilate the room.")]> ∅)]>
  (<["Light" :=
      <["too_low" := (50, "Light levels are too low. Consider turning on more lights.")]>
      (<["too_high" := (1000, "Light levels are too bright. Consider adjusting the lighting.")]> ∅)]>
  (<["Gas Resistance" :=
      <["too_high" := (1000, "Gas resistance is high. Open a window or ventilate the room.")]> ∅]>
  (<["Occupancy" :=
      <["too_high" := (10, "Too many people in the room. Consider moving to a less crowded room.")]> ∅]>
  ∅))))))))).

(** The ten keys of [warnings]. *)
Definition comfort_kinds : list string :=
  ["Temperature"; "Humidity"; "CO2"; "IAQ"; "UV Index";
   "Microphone Noise Level"; "Pressure"; "Light"; "Gas Resistance";
   "Occupancy"].

(** Lines 238-240: the low tier.  [float(value)] is evaluated only when the
    key is present (short-circuit [and]). *)
Definition low_breach (entry : tiers) (value : pyvalue) : result (option string) :=
  match entry !! "too_low" with
  | Some (bound, message) =>
      x ← float value;
      mret (if Qlt_bool x (inject_Z bound) then Some message else None)
  | None => mret None
  end.

(** Lines 242-244: the high tier. *)
Definition high_breach (entry : tiers) (value : pyvalue) : result (option string) :=
  match entry !! "too_high" with
  | Some (bound, message) =>
      x ← float value;
      mret (if Qlt_bool (inject_Z bound) x then Some message else None)
  | None => mret None
  end.

(** The body of [check_for_warnings] below the table, for any table. *)
Definition check_for_warnings_in (table : gmap string tiers)
    (sensor : string) (value : pyvalue) (unit : string) : result (string * bool) :=
  if is_unknown value then
    mret (sensor +:+ " has no current value.", true)
  else
    let in_range := (sensor +:+ " value is within a comfortable range.", true) in
    match table !! sensor with
    | Some entry =>
        low ← low_breach entry value;
        match low with
        | Some message => mret (message, false)
        | None =>
            high ← high_breach entry value;
            match high with
            | Some message => mret (message, false)
            | None => mret in_range
            end
        end
    | None => mret in_range
    end.

Definition check_for_warnings (sensor : string) (value : pyvalue) (unit : string)
    : result (string * bool) :=
  check_for_warnings_in warnings sensor value unit.

End Thresholds.

(** ** The sensor store (src/sensor_data.py, [create_sensor_dict]) *)

Module Store.

(** One entry of a room's ["sensors"] dictionary.  A history entry is the
    pair (value, timestamp) that the historical source appends; the ISO
    time string is kept here as the instant it denotes. *)
Record Sensor : Type := {
  sensor_unit : string;
  sensor_id : string;
  current_value : pyvalue;
  history : list (Q * Z);
  sensor_warnings : list string;
}.

(** One entry of [data]: room name, sensors and volume in cubic metres. *)
Record Room : Type := {
  room : string;
  sensors : gmap string Sensor;
  volume : Q;
}.

End Store.
Import Store.

(** ** Occupancy estimate (src/sensor_data.py, [calculate_occupancy]) *)

Module Occupancy.

Definition calculate_occupancy (data : gmap string Room) (room_id : string)
    (baseline_co2 emission_rate time_elapsed : Q) : result Z :=
  entry ← getitem data room_id;
  co2 ← getitem (sensors entry) "CO2";
  current_co2 ← float (current_value co2);
  let room_volume := int (volume entry) in
  if negb (Qeq_bool current_co2 0) then
    let co2_diff := (current_co2 - baseline_co2)%Q in
    let co2_produced := (co2_diff * inject_Z room_volume / 1000)%Q in
    people_count ← div co2_produced (emission_rate * (time_elapsed / 3600))%Q;
    mret (Z.max 0 (round people_count))
  else
    mret 0.

(** The call made by [update_occupancy]: every keyword argument at its
    default. *)
Definition calculate_occupancy_default (data : gmap string Room) (room_id : string)
    : result Z :=
  calculate_occupancy data room_id 550%Q 18%Q 3600%Q.

End Occupancy.

(** ** Binary64 arithmetic (Python's [float]) *)

Module Binary64.

(** An IEEE-754 double: a zero, an infinity, NaN, or the finite value
    (-1)^s * m * 2^e. *)
Abbreviation binary64 := SpecFloat.spec_float.

(** [x - y], [x * y] and the quotient of IEEE-754: round to nearest, ties
    to even.  None of them raises; a result beyond the range is an
    infinity. *)
Definition sub : binary64 → binary64 → binary64 := SpecFloat.SFsub 53 1024.
Definition mul : binary64 → binary64 → binary64 := SpecFloat.SFmul 53 1024.
Definition quot : binary64 → binary64 → binary64 := SpecFloat.SFdiv 53 1024.

(** The double nearest to an integer (exact below 2^53). *)
Definition of_Z (n : Z) : binary64 := SpecFloat.binary_normalize 53 1024 n 0 false.

(** The double nearest to a rational: what a number literal denotes. *)
Definition of_Q (q : Q) : binary64 :=
  match Qnum q with
  | 0 => SpecFloat.S754_zero false
  | Zpos n =>
      quot (SpecFloat.S754_finite false n 0) (SpecFloat.S754_finite false (Qden q) 0)
  | Zneg n =>
      quot (SpecFloat.S754_finite true n 0) (SpecFloat.S754_finite false (Qden q) 0)
  end.

(** The exact value of a finite double (0 for the others). *)
Definition value (x : binary64) : Q :=
  match x with
  | SpecFloat.S754_finite s m e =>
      let magnitude :=
        if 0 <=? e then inject_Z (Z.pos m * 2 ^ e)
        else (inject_Z (Z.pos m) / inject_Z (2 ^ (- e)))%Q in
      if s then (- magnitude)%Q else magnitude
  | _ => 0%Q
  end.

(** [x == 0.0]; as a condition a float is false exactly when it is a zero
    (NaN is true). *)
Definition is_zero (x : binary64) : bool :=
  match x with
  | SpecFloat.S754_zero _ => true
  | _ => false
  end.

(** Neither an infinity nor NaN. *)
Definition is_finite (x : binary64) : bool :=
  match x with
  | SpecFloat.S754_zero _ | SpecFloat.S754_finite _ _ _ => true
  | _ => false
  end.

(** [float(value)]: a number is read as the nearest double. *)
Definition float (v : pyvalue) : result binary64 :=
  match v with
  | PNone => Raise TypeError
  | PStr _ => Raise ValueError
  | PNum q => Ok (of_Q q)
  end.

(** An int operand of a float operation: integers beyond the range of a
    double raise. *)
Definition of_int (n : Z) : result binary64 :=
  match of_Z n with
  | SpecFloat.S754_infinity _ => Raise OverflowError
  | x => Ok x
  end.

(** [x / y] on floats: Python raises on a zero divisor. *)
Definition div (x y : binary64) : result binary64 :=
  if is_zero y then Raise ZeroDivisionError else Ok (quot x y).

(** [round(x)] with one argument: the nearest integer to the exact value
    of the double, ties to the even one. *)
Definition round (x : binary64) : result Z :=
  match x with
  | SpecFloat.S754_nan => Raise ValueError
  | SpecFloat.S754_infinity _ => Raise OverflowError
  | _ => Ok (Py.round (value x))
  end.

(** The product [a * b] of two number literals as Python evaluates it, as
    the rational it denotes. *)
Definition literal_product (a b : Q) : Q := value (mul (of_Q a) (of_Q b)).

End Binary64.

(** ** Occupancy estimate in binary64 (src/sensor_data.py, [calculate_occupancy])

    The same function as [Occupancy.calculate_occupancy], with every float
    operation rounded as Python rounds it.  The three keyword arguments are
    floats; an int below 2^53 is the same double. *)

Module OccupancyBinary64.
Import Binary64.

Definition calculate_occupancy (data : gmap string Room) (room_id : string)
    (baseline_co2 emission_rate time_elapsed : binary64) : result Z :=
  entry ← getitem data room_id;
  co2 ← getitem (sensors entry) "CO2";
  current_co2 ← float (current_value co2);
  let room_volume := int (volume entry) in
  if negb (is_zero current_co2) then
    let co2_diff := sub current_co2 baseline_co2 in
    room_volume_float ← of_int room_volume;
    co2_produced ← div (mul co2_diff room_volume_float) (of_Z 1000);
    hours ← div time_elapsed (of_Z 3600);
    people_count ← div co2_produced (mul emission_rate hours);
    rounded ← round people_count;
    mret (Z.max 0 rounded)
  else
    mret 0.

(** The formula as the specification words it, evaluated in binary64: the
    room volume enters as it is, and the rounded quotient is floored at 0. *)
Definition spec_people (current_co2 room_volume baseline_co2 emission_rate
    elapsed_seconds : binary64) : result Z :=
  rounded ← round (quot (quot (mul (sub current_co2 baseline_co2) room_volume)
                              (of_Z 1000))
                        (mul emission_rate (quot elapsed_seconds (of_Z 3600))));
  mret (Z.max 0 rounded).

End OccupancyBinary64.

(** ** Trend forecast (app.py, [predict_data]) *)

Module Forecast.

(** [timedelta(hours=.., minutes=.., seconds=.., microseconds=..)] *)
Definition timedelta (hours minutes seconds microseconds : Z) : Z :=
  ((hours * 60 + minutes) * 60 + seconds) * 1000000 + microseconds.

(** [d.total_seconds()] *)
Definition total_seconds (d : Z) : Q := Qmake d 1000000.

(** Fields of a datetime. *)
Definition minute (t : Z) : Z := (t `div` 60000000) `mod` 60.
Definition second (t : Z) : Z := (t `div` 1000000) `mod` 60.
Definition microsecond (t : Z) : Z := t `mod` 1000000.

(** [enumerate(l)] *)
Definition enumerate {A} (l : list A) : list (nat * A) := imap (λ i x, (i, x)) l.

(** Line 729: [[i for i, ts in enumerate(timestamps) if ts >= two_hours_ago]] *)
Definition recent_indices_since (two_hours_ago : Z) (timestamps : list Z) : list nat :=
  (filter (λ p, two_hours_ago ≤ p.2) (enumerate timestamps)).*1.

(** Line 741: the kinds for which the turning-point search is skipped. *)
Definition no_turning_point_kinds : list string :=
  ["Microphone Noise Level"; "Occupancy"; "Light"].

(** Lines 743-744: the test of the loop body at index [i]. *)
Definition is_turning_point (values : list Q) (i : nat) : result bool :=
  v ← index values i;
  before ← index values (i - 1);
  after ← index values (i + 1);
  mret ((Qlt_bool before v && Qlt_bool after v)
        || (Qlt_bool v before && Qlt_bool v after)).

(** Lines 742-746: [for i in range(start, 0, -1)] with [break] at the first
    hit; the loop variable runs over [start, start-1, ..., 1]. *)
Fixpoint search_turning_point (values : list Q) (start : nat) : result (option nat) :=
  match start with
  | O => mret None
  | S below =>
      hit ← is_turning_point values start;
      if hit : bool then mret (Some start) else search_turning_point values below
  end.

(** Lines 727-751: the window handed to the regression. *)
Definition select_window (sensor : string) (timestamps : list Z) (values : list Q)
    : result (list Z * list Q) :=
  newest ← index_last timestamps;
  let two_hours_ago := newest - timedelta 2 0 0 0 in
  let recent_indices :=
    if bool_decide (sensor = "Light") then (enumerate timestamps).*1
    else recent_indices_since two_hours_ago timestamps in
  recent_timestamps ← mapM (index timestamps) recent_indices;
  recent_values ← mapM (index values) recent_indices;
  turning_point_index ←
    (if bool_decide (sensor ∈ no_turning_point_kinds) then mret None
     else search_turning_point values (length values - 2));
  match turning_point_index with
  | Some (S k) => mret (drop (S k) timestamps, drop (S k) values)
  | _ => mret (recent_timestamps, recent_values)
  end.

(** Lines 754 and 773: seconds elapsed since the first instant of the
    window, for each of [instants]. *)
Definition seconds_since_start (recent_timestamps instants : list Z) : result (list Q) :=
  mapM (λ ts, start ← index recent_timestamps 0; mret (total_seconds (ts - start)))
       instants.

Definition sum (l : list Q) : Q := foldr Qplus 0%Q l.
Definition mean (l : list Q) : Q := (sum l / inject_Z (Z.of_nat (length l)))%Q.
Definition amax (l : list Q) : Q :=
  foldr (λ a m, if Qlt_bool m a then a else m) (hd 0%Q l) l.
Definition amin (l : list Q) : Q :=
  foldr (λ a m, if Qlt_bool a m then a else m) (hd 0%Q l) l.

(** Library routine [scipy.stats.linregress(x, y)], restricted to the two
    results the forecaster keeps.  It rejects empty input, input of unequal
    lengths and more than one point with all [x] identical ([ValueError]);
    otherwise slope = ssxym / ssxm and intercept = ymean - slope * xmean,
    where a single point gives the float quotient 0/0. *)
Definition linregress (x y : list Q) : result (pyfloat * pyfloat) :=
  if bool_decide (x = []) || bool_decide (y = []) then Raise ValueError
  else if negb (length x =? length y)%nat then Raise ValueError
  else if (1 <? length x)%nat && Qeq_bool (amax x) (amin x) then Raise ValueError
  else
    let xmean := mean x in
    let ymean := mean y in
    let ssxm := mean (map (λ a, (a - xmean) * (a - xmean))%Q x) in
    let ssxym := mean (zip_with (λ a b, (a - xmean) * (b - ymean))%Q x y) in
    let slope := if Qeq_bool ssxm 0 then NaN else Fin (ssxym / ssxm)%Q in
    let intercept := fsub (Fin ymean) (fmul slope (Fin xmean)) in
    Ok (slope, intercept).

(** Lines 760-761 *)
Definition myfunc (slope intercept : pyfloat) (x : Q) : pyfloat :=
  fadd (fmul slope (Fin x)) intercept.

(** Lines 764-767 *)
Definition nearest_quarter_hour (current_time : Z) : Z :=
  current_time - timedelta 0 (minute current_time `mod` 15) (second current_time)
                             (microsecond current_time).

(** Line 770 *)
Definition future_times_from (nearest : Z) : list Z :=
  map (λ i : nat, nearest + timedelta 0 (15 * Z.of_nat i) 0 0) (seq 0 25).

(** Lines 769-782: the 25 instants and the clamped values of the line. *)
Definition extrapolate (current_time : Z) (recent_timestamps : list Z)
    (slope intercept : pyfloat) : result (list Z * list Q) :=
  let future_times := future_times_from (nearest_quarter_hour current_time) in
  future_time_numbers ← seconds_since_start recent_timestamps future_times;
  let predictions := map (myfunc slope intercept) future_time_numbers in
  let predictions := map max0 predictions in
  mret (future_times, predictions).

(** Lines 753-782: regression over a chosen window and extrapolation. *)
Definition forecast_on (current_time : Z) (recent_timestamps : list Z)
    (recent_values : list Q) : result (list Z * list Q) :=
  time_numbers ← seconds_since_start recent_timestamps recent_timestamps;
  '(slope, intercept) ← linregress time_numbers recent_values;
  extrapolate current_time recent_timestamps slope intercept.

(** [predict_data(room, sensor, unit, timestamps, values)]; [current_time]
    is the value of [datetime.now()] at line 764.  The arguments [room] and
    [unit] are not used by the body. *)
Definition predict_data (current_time : Z) (sensor : string)
    (timestamps : list Z) (values : list Q) : result (list Z * list Q) :=
  '(recent_timestamps, recent_values) ← select_window sensor timestamps values;
  forecast_on current_time recent_timestamps recent_values.

(** Lines 304-309 of [show_current_data]: the loop that drops readings from
    the future, with its two accumulators. *)
Fixpoint filter_future (current_time : Z) (pairs : list (Z * Q))
    (timestamps : list Z) (values : list Q) : list Z * list Q :=
  match pairs with
  | [] => (timestamps, values)
  | (ts, val) :: rest =>
      if bool_decide (ts ≤ current_time)
      then filter_future current_time rest (timestamps ++ [ts]) (values ++ [val])
      else filter_future current_time rest timestamps values
  end.

(** What [show_current_data] prepares for one sensor: the series it later
    draws and the forecast, [None] when no forecast was made. *)
Record Series : Type := {
  shown_timestamps : list Z;
  shown_values : list Q;
  forecast : option (list Z * list Q);
}.

(** Lines 285-315 of [show_current_data] for the selected room;
    [filter_time] is [datetime.now()] at line 303 and [predict_time] the one
    inside [predict_data].  The header and the last historic value (lines
    285 and 293-295) read the store without changing the outcome and are
    left out beyond the lookups.  The lists [timestamps] and [values] built
    here are the ones passed on to the graph calls of lines 364-367. *)
Definition show_current_data_series (data : gmap string Room) (room_id sensor : string)
    (filter_time predict_time : Z) : result Series :=
  entry ← getitem data room_id;
  sensor_data ← getitem (sensors entry) sensor;
  let historic_value := history sensor_data in
  let timestamps_all := historic_value.*2 in
  let values_all := historic_value.*1 in
  let '(timestamps, values) :=
    filter_future filter_time (zip timestamps_all values_all) [] [] in
  if (1 <? length timestamps)%nat then
    prediction ← predict_data predict_time sensor timestamps values;
    mret {| shown_timestamps := timestamps; shown_values := values;
            forecast := Some prediction |}
  else
    mret {| shown_timestamps := timestamps; shown_values := values;
            forecast := None |}.

End Forecast.

(** ** Vocabulary of the window-selection claims *)

Module WindowSpec.
Import Forecast.

(** [values[i]] is strictly greater than both neighbours, or strictly less
    than both. *)
Definition local_extremum (values : list Q) (i : nat) : Prop :=
  ∃ before v after,
    values !! (i - 1)%nat = Some before ∧ values !! i = Some v
    ∧ values !! (i + 1)%nat = Some after
    ∧ ((before < v ∧ after < v) ∨ (v < before ∧ v < after))%Q.

(** The indices the scan visits: second-to-last down to 1. *)
Definition scanned (values : list Q) (i : nat) : Prop :=
  (1 ≤ i ≤ length values - 2)%nat.

(** The most recent local extremum among the scanned indices. *)
Definition most_recent_extremum (values : list Q) (k : nat) : Prop :=
  scanned values k ∧ local_extremum values k
  ∧ ∀ j, (k < j)%nat → scanned values j → ¬ local_extremum values j.

(** The default window: the readings no older than two hours before the
    newest one. *)
Definition last_two_hours (timestamps : list Z) (values : list Q) (newest : Z)
    : list (Z * Q) :=
  filter (λ p, newest - timedelta 2 0 0 0 ≤ p.1) (zip timestamps values).

(** Seconds from [start] to each of [instants]. *)
Definition seconds_from (start : Z) (instants : list Z) : list Q :=
  map (λ ts, total_seconds (ts - start)) instants.

End WindowSpec.

(** ** Concrete stores used in the examples below *)

Module Examples.

(** One sensor entry with the given current value and history. *)
Definition reading (value : pyvalue) (readings : list (Q * Z)) : Sensor :=
  {| sensor_unit := "ppm"; sensor_id := "_scd30_co2"; current_value := value;
     history := readings; sensor_warnings := [] |}.

(** The room Conference-Space holding the one sensor [kind]. *)
Definition conference_space (kind : string) (value : pyvalue) (room_volume : Q)
    (readings : list (Q * Z)) : Room :=
  {| room := "Conference-Space";
     sensors := {[ kind := reading value readings ]};
     volume := room_volume |}.

(** A store with the one room [multisensor_115]. *)
Definition one_room (kind : string) (value : pyvalue) (room_volume : Q)
    (readings : list (Q * Z)) : gmap string Room :=
  {[ "multisensor_115" := conference_space kind value room_volume readings ]}.

(** Three readings one minute apart; seen from instant 60000000 the third
    lies in the future. *)
Definition skewed_history : list (Q * Z) :=
  [(400%Q, 0); (410%Q, 60000000); (999%Q, 120000000)].

(** Two readings stored under one timestamp. *)
Definition twin_history : list (Q * Z) := [(400%Q, 0); (410%Q, 0)].

End Examples.

(** ** Python string operations used by the live fetch and the info streams *)

Module PyStr.

(** [s.split(sep)] for a one-character separator: never empty, an empty
    string gives one empty word. *)
Fixpoint split (sep : Ascii.ascii) (s : string) : list string :=
  match s with
  | EmptyString => [EmptyString]
  | String a rest =>
      if decide (a = sep) then EmptyString :: split sep rest
      else match split sep rest with
           | word :: words => String a word :: words
           | [] => [String a EmptyString]
           end
  end.

(** [sep.join(words)] *)
Definition join (sep : string) (words : list string) : string :=
  String.concat sep words.

(** [needle in hay] on strings: substring test. *)
Fixpoint contains (needle hay : string) : bool :=
  String.prefix needle hay
  || match hay with
     | EmptyString => false
     | String _ rest => contains needle rest
     end.

(** [s.startswith(start)] *)
Definition startswith (s start : string) : bool := String.prefix start s.

(** [s.endswith(ending)] *)
Fixpoint endswith (s ending : string) : bool :=
  String.eqb s ending
  || match s with
     | EmptyString => false
     | String _ rest => endswith rest ending
     end.

(** An ASCII letter. *)
Definition is_letter (c : Ascii.ascii) : bool :=
  let n := Ascii.nat_of_ascii c in
  ((65 <=? n) && (n <=? 90) || (97 <=? n) && (n <=? 122))%nat.

(** [s.lower()] on ASCII letters. *)
Fixpoint lower (s : string) : string :=
  match s with
  | EmptyString => EmptyString
  | String c rest =>
      let n := Ascii.nat_of_ascii c in
      String (if (65 <=? n) && (n <=? 90) then Ascii.ascii_of_nat (n + 32) else c)%nat
             (lower rest)
  end.

(** Whether every character is an ASCII letter. *)
Fixpoint all_letters (s : string) : bool :=
  match s with
  | EmptyString => true
  | String c rest => is_letter c && all_letters rest
  end.

(** Whether [s] is a word that [float(s)] rejects with ValueError.  Among
    the strings made of ASCII letters only (the empty string included),
    [float] accepts exactly inf, infinity and nan, in any case; every
    other literal it accepts has a digit. *)
Definition float_rejects_word (s : string) : bool :=
  all_letters s
  && negb (bool_decide (lower s ∈ ["inf"; "infinity"; "nan"])).

End PyStr.

(** ** In-place updates of the store *)

Module StoreUpdate.

(** [details["current_value"] = new_value] *)
Definition set_current_value (new_value : pyvalue) (details : Sensor) : Sensor :=
  {| sensor_unit := sensor_unit details; sensor_id := sensor_id details;
     current_value := new_value; history := history details;
     sensor_warnings := sensor_warnings details |}.

(** The room with its entry for [kind] replaced. *)
Definition set_sensor (kind : string) (details : Sensor) (entry : Room) : Room :=
  {| room := room entry; sensors := <[kind := details]> (sensors entry);
     volume := volume entry |}.

(** Two sensor entries that differ at most in their current value. *)
Definition same_sensor_but_value (s s' : Sensor) : Prop :=
  sensor_unit s' = sensor_unit s ∧ sensor_id s' = sensor_id s
  ∧ history s' = history s ∧ sensor_warnings s' = sensor_warnings s.

(** Two rooms with the same name, volume and sensor kinds, whose sensors
    differ at most in their current values, and only for kinds in [P]. *)
Definition same_room_but_values (P : string → Prop) (r r' : Room) : Prop :=
  room r' = room r ∧ volume r' = volume r
  ∧ ∀ kind, match sensors r !! kind, sensors r' !! kind with
            | Some s, Some s' =>
                same_sensor_but_value s s' ∧ (¬ P kind → s' = s)
            | None, None => True
            | _, _ => False
            end.

(** Two stores with the same rooms, differing at most in current values of
    the kinds in [P]. *)
Definition same_store_but_values (P : string → Prop)
    (data data' : gmap string Room) : Prop :=
  ∀ room_id, match data !! room_id, data' !! room_id with
             | Some r, Some r' => same_room_but_values P r r'
             | None, None => True
             | _, _ => False
             end.

End StoreUpdate.

(** ** Occupancy write-back (src/sensor_data.py, [update_occupancy]) *)

Module OccupancyUpdate.
Import Occupancy StoreUpdate.

(** [update_occupancy]: the loop over [self.data.items()].  [room_ids] is
    the list of the keys of [data] in the order the dictionary yields them
    (insertion order).  The store is changed in place, so an exception of
    [calculate_occupancy] leaves the rooms already visited updated: the
    result is the store as it then is, with the exception if one was
    raised. *)
Fixpoint update_occupancy (room_ids : list string) (data : gmap string Room)
    : gmap string Room * option exn :=
  match room_ids with
  | [] => (data, None)
  | room_id :: rest =>
      match data !! room_id with
      | Some sensor_info =>
          match sensors sensor_info !! "Occupancy" with
          | Some occupancy =>
              match calculate_occupancy data room_id 550%Q 18%Q 3600%Q with
              | Ok people =>
                  update_occupancy rest
                    (<[room_id := set_sensor "Occupancy"
                                    (set_current_value (PNum (inject_Z people)) occupancy)
                                    sensor_info]> data)
              | Raise e => (data, Some e)
              end
          | None => update_occupancy rest data
          end
      | None => update_occupancy rest data
      end
  end.

(** The kinds whose current value [update_occupancy] may change. *)
Abbreviation occupancy_only := (λ kind : string, kind = "Occupancy").

End OccupancyUpdate.

(** ** Live values (src/sensor_data.py, [fetch_live_data]) *)

Module Live.
Import PyStr StoreUpdate.

(** The ["id"] entries of [multisensor_sensors_home_assistant], in order. *)
Definition valid_suffixes : list string :=
  ["_ld2410_detection_distance"; "_tof_distance"; "_bme680_humidity";
   "_bme680_temperature"; "_scd30_co2"; "_bme680_iaq"; "_ltr390_uv_index";
   "_microphone_voltage"; "_microphone_noise_level"; "_bme680_pressure";
   "_ltr390_light"; "_bme680_gas_resistance"].

(** Lines 146-150: the entities the loop keeps. *)
Definition is_multisensor_entity (entity_id : string) : bool :=
  startswith entity_id "sensor.multisensor_"
  && existsb (endswith entity_id) valid_suffixes.

(** Lines 158-160: room id and sensor type id decoded from an entity id.
    [parts[0]] exists because [split] never returns an empty list. *)
Definition decode_entity (entity_id : string) : string * string :=
  let parts := split "_"%char entity_id in
  let sensor_id :=
    join "_" (drop 1 (split "."%char (default "" (head parts))) ++ take 1 (drop 1 parts)) in
  let sensor_type_id := "_" +:+ join "_" (drop 3 parts) in
  (sensor_id, sensor_type_id).

(** The loop of [update_sensor_value] over [sensors.items()]: the first
    sensor, in dictionary order, whose id contains [target_id]. *)
Fixpoint first_matching (target_id : string) (sensors : gmap string Sensor)
    (order : list string) : option (string * Sensor) :=
  match order with
  | [] => None
  | sensor_name :: rest =>
      match sensors !! sensor_name with
      | Some sensor_details =>
          if contains target_id (sensor_id sensor_details)
          then Some (sensor_name, sensor_details)
          else first_matching target_id sensors rest
      | None => first_matching target_id sensors rest
      end
  end.

(** [update_sensor_value(sensors_data, target_sensor_id, target_id,
    new_value)]; [order] lists the sensor kinds of a room in the order the
    dictionary yields them. *)
Definition update_sensor_value (order : list string) (sensors_data : gmap string Room)
    (target_sensor_id target_id : string) (new_value : pyvalue) : gmap string Room :=
  match sensors_data !! target_sensor_id with
  | Some entry =>
      match first_matching target_id (sensors entry) order with
      | Some (sensor_name, sensor_details) =>
          <[target_sensor_id :=
              set_sensor sensor_name (set_current_value new_value sensor_details) entry]>
            sensors_data
      | None => sensors_data
      end
  | None => sensors_data
  end.

(** Lines 153-162 for one entity: decode and update. *)
Definition apply_entity (order : list string) (data : gmap string Room)
    (entity : string * pyvalue) : gmap string Room :=
  let '(sensor_id, sensor_type_id) := decode_entity entity.1 in
  update_sensor_value order data sensor_id sensor_type_id entity.2.

(** Lines 141-162 of [fetch_live_data]: [ok] is [response.ok] and
    [all_states] the decoded response, one pair (entity_id, state) per
    entity.  The request itself is outside the model. *)
Definition fetch_live_data (order : list string) (ok : bool)
    (all_states : list (string * pyvalue)) (data : gmap string Room)
    : gmap string Room :=
  if ok then
    foldl (apply_entity order) data
          (filter (λ entity, is_multisensor_entity entity.1 = true) all_states)
  else data.

End Live.

(** ** Vocabulary of the live-routing property *)

Module LiveSpec.

(** For each Home Assistant suffix, the kind of the store whose current
    value an entity with that suffix sets, if any. *)
Definition live_routing : list (string * option string) :=
  [("_ld2410_detection_distance", None);
   ("_tof_distance", None);
   ("_bme680_humidity", Some "Humidity");
   ("_bme680_temperature", Some "Temperature");
   ("_scd30_co2", Some "CO2");
   ("_bme680_iaq", Some "IAQ");
   ("_ltr390_uv_index", Some "UV Index");
   ("_microphone_voltage", None);
   ("_microphone_noise_level", Some "Microphone Noise Level");
   ("_bme680_pressure", Some "Pressure");
   ("_ltr390_light", Some "Light");
   ("_bme680_gas_resistance", Some "Gas Resistance")].

End LiveSpec.

(** ** The initial store (src/sensor_data.py, [create_sensor_dict]) *)

Module FreshStore.

Definition sensor_room_mapping : list (string * string) :=
  [("multisensor_115", "Conference-Space");
   ("multisensor_108", "zwischen Conference-Space und Robot-Space");
   ("multisensor_107", "Robot-Space");
   ("multisensor_114", "Empfang");
   ("multisensor_110", "zwischen Empfang und Focus-Space");
   ("multisensor_109", "Focus-Space");
   ("multisensor_104", "Experience-Hub");
   ("multisensor_106", "Design-Thinking-Space");
   ("multisensor_111", "Co-Working-Space (Left in Picture)");
   ("multisensor_103", "Co-Working-Space (Right in Picture)");
   ("multisensor_113", "Social Lounge");
   ("multisensor_112", "Hallway");
   ("multisensor_105", "3D Printing-Space")].

(** A dictionary display: later entries replace earlier ones. *)
Definition dict {A} (items : list (string * A)) : gmap string A :=
  foldl (λ d item, <[item.1 := item.2]> d) ∅ items.

(** [self.room_volume]: floor area times a height of 3.2. *)
Definition room_volume : gmap string Q :=
  dict [("Conference-Space", (2106 # 100) * (32 # 10));
        ("zwischen Conference-Space und Robot-Space", (1404 # 100) * (32 # 10));
        ("Robot-Space", (3003 # 100) * (32 # 10));
        ("Empfang", (3127 # 100) * (32 # 10));
        ("zwischen Empfang und Focus-Space", (1326 # 100) * (32 # 10));
        ("Focus-Space", (507 # 10) * (32 # 10));
        ("Experience-Hub", (8827 # 100) * (32 # 10));
        ("Design-Thinking-Space", (4386 # 100) * (32 # 10));
        ("Co-Working-Space (Left in Picture)", 48 * (32 # 10));
        ("Co-Working-Space (Right in Picture)", (4635 # 100) * (32 # 10));
        ("Social Lounge", (3474 # 100) * (32 # 10));
        ("Hallway", 0);
        ("3D Printing-Space", 0)]%Q.

(** [self.multisensor_sensors]: kind, id and unit, in order. *)
Definition multisensor_sensors : list (string * (string * string)) :=
  [("Humidity", ("_humidity", "%"));
   ("Temperature", ("_temperature", "°C"));
   ("CO2", ("_scd30_co2", "ppm"));
   ("IAQ", ("_bme680_iaq", "IAQ"));
   ("UV Index", ("_ltr390_uv_index", "UVI"));
   ("Microphone Noise Level", ("_microphone_noise_level", "Volume"));
   ("Pressure", ("_bme680_pressure", "hPa"));
   ("Light", ("_ltr390_light", "lx"));
   ("Gas Resistance", ("_bme680_gas_resistance", "Ω"));
   ("Occupancy", ("_people", "People"))].

(** The order in which a room's sensors and the rooms are iterated. *)
Definition sensor_order : list string := multisensor_sensors.*1.
Definition room_order : list string := sensor_room_mapping.*1.

(** The inner dictionary comprehension: one empty entry per kind. *)
Definition fresh_sensors : gmap string Sensor :=
  dict ((λ item : string * (string * string),
           (item.1, {| sensor_unit := item.2.2; sensor_id := item.2.1;
                       current_value := PNone; history := [];
                       sensor_warnings := [] |})) <$> multisensor_sensors).

(** The loop of [create_sensor_dict]; [self.room_volume[room]] raises
    KeyError for a room name without volume. *)
Definition create_sensor_dict : result (gmap string Room) :=
  foldl (λ acc item,
           sensors_data ← acc;
           room_vol ← getitem room_volume item.2;
           mret (<[item.1 := {| room := item.2; sensors := fresh_sensors;
                               volume := room_vol |}]> sensors_data))
        (Ok ∅) sensor_room_mapping.

End FreshStore.

(** ** More concrete stores for the examples *)

Module MoreExamples.
Import Examples.

(** A store with the room Focus-Space holding a CO2 sensor with the given
    current value and an Occupancy sensor without value. *)
Definition metered_store (co2 : pyvalue) (room_volume : Q) : gmap string Room :=
  {[ "multisensor_109" :=
       {| room := "Focus-Space";
          sensors := <["CO2" := reading co2 []]> {[ "Occupancy" := reading PNone [] ]};
          volume := room_volume |} ]}.

End MoreExamples.

(** ** The gauge (app.py, [show_sensor_gauge]) *)

Module Gauge.
Import FreshStore.

(** [round(x, 2)]: nearest multiple of 1/100, ties to the even one. *)
Definition round2 (x : Q) : Q := (inject_Z (round (x * 100)) / 100)%Q.

(** The local dictionary [sensor_ranges]: the good range of each kind. *)
Definition sensor_ranges : gmap string (Z * Z) :=
  dict [("Temperature", (18, 26)); ("Humidity", (30, 60)); ("CO2", (0, 1000));
        ("IAQ", (0, 100)); ("UV Index", (0, 6));
        ("Microphone Noise Level", (0, 80)); ("Pressure", (980, 1030));
        ("Light", (50, 1000)); ("Gas Resistance", (0, 1000));
        ("Occupancy", (0, 10))].

(** What the function hands to the chart: the two ends of the scale and the
    upper ends of the five colour bands (red, orange, green, orange, red),
    as fractions of the scale. *)
Record Scale : Type := {
  scale_min : Z;
  scale_max : Z;
  band_ends : list Q;
}.

(** [round(x / 10) * 10] *)
Definition round_to_ten (x : Z) : Z := round (inject_Z x / 10) * 10.

(** The helper [normalize_value], for the scale ends it closes over. *)
Definition normalize_value (min_value max_value value : Z) : result Q :=
  nv ← div (inject_Z (value - min_value)) (inject_Z (max_value - min_value));
  mret (round2 nv).

(** Lines 533-587 of [show_sensor_gauge]; the arguments [unit] and [value]
    only label the chart. *)
Definition show_sensor_gauge (sensor : string) : result Scale :=
  good_range ← getitem sensor_ranges sensor;
  let min_value := good_range.1 - (good_range.2 - good_range.1) in
  let max_value := good_range.2 + (good_range.2 - good_range.1) in
  let min_value := if min_value <? 0 then 0 else min_value in
  let min_value := round_to_ten min_value in
  let max_value := round_to_ten max_value in
  let orange_block_size := round (inject_Z (good_range.2 - good_range.1) / 4) in
  ends ← mapM (normalize_value min_value max_value)
              [good_range.1 - orange_block_size; good_range.1; good_range.2;
               good_range.2 + orange_block_size; max_value];
  mret {| scale_min := min_value; scale_max := max_value; band_ends := ends |}.

End Gauge.

(** ** The graphs (app.py, [display_combined_graph]) *)

Module Graph.
Import Forecast.

(** One decimal digit as a character. *)
Definition digit (n : Z) : Ascii.ascii := Ascii.ascii_of_nat (48 + Z.to_nat n).

(** A number below 100 on two digits, as [%H] and [%M] print it. *)
Definition two_digits (n : Z) : string :=
  String (digit (n `div` 10)) (String (digit (n `mod` 10)) EmptyString).

(** [hour] of a datetime; [minute] is [Forecast.minute]. *)
Definition hour (t : Z) : Z := (t `div` 3600000000) `mod` 24.

(** [ts.strftime("%H:%M Uhr")] *)
Definition strftime_clock (ts : Z) : string :=
  two_digits (hour ts) +:+ ":" +:+ two_digits (minute ts) +:+ " Uhr".

(** The three aligned lists that [display_combined_graph] hands to the
    chart; [None] pads each series over the other one's part. *)
Record Combined : Type := {
  x_axis_combined : list string;
  combined_historical_data : list (option Q);
  combined_prognosis_data : list (option Q);
}.

(** Lines 610-619 of [display_combined_graph]. *)
Definition display_combined_graph (timestamps : list Z) (values : list Q)
    (future_times : list Z) (predictions : list Q) : Combined :=
  let x_axis_historical := strftime_clock <$> timestamps in
  let x_axis_prognosis := strftime_clock <$> future_times in
  {| x_axis_combined := x_axis_historical ++ x_axis_prognosis;
     combined_historical_data := (Some <$> values) ++ replicate (length predictions) None;
     combined_prognosis_data := replicate (length values) None ++ (Some <$> predictions) |}.

End Graph.

(** ** The sensor panel (app.py, [show_current_data], lines 321-367) *)

Module Panel.
Import Thresholds FreshStore Gauge.

(** The local dictionary [ideal_values]. *)
Definition ideal_values : gmap string Z :=
  dict [("Temperature", 21); ("Humidity", 45); ("CO2", 400); ("IAQ", 50);
        ("UV Index", 0); ("Microphone Noise Level", 40); ("Pressure", 1013);
        ("Light", 400); ("Gas Resistance", 200); ("Occupancy", 1)].

(** What the panel puts on the page, in order. *)
Inductive shown : Type :=
| Metric (label : string) (value : Q) (unit : string) (delta : Q) (delta_color : string)
| Success (text : string)
| Warning (text : string).

(** Lines 330-331 and 340-342, for a numeric [value]. *)
Definition pick_delta_color (value : Q) (ideal : Z) (delta : Q) : string :=
  if Qlt_bool value (inject_Z ideal) && Qlt_bool delta 0 then "normal"
  else if Qlt_bool (inject_Z ideal) value && Qlt_bool 0 delta then "inverse"
  else "off".

(** [if predictions:] followed by [predictions[0]]: the first prediction of
    a non-empty list; [None] and the empty list are false. *)
Definition first_prediction (predictions : option (list Q)) : option Q :=
  match predictions with
  | Some (p :: _) => Some p
  | _ => None
  end.

(** Lines 321-355.  The string ['unknown'] is kept as it is by line 326 and
    then compared with a number at line 330: that comparison raises
    TypeError, after the lookup in [ideal_values]. *)
Definition show_current_data_panel (sensor : string) (current_value : pyvalue)
    (unit : string) (last_historic_value : Q) (predictions : option (list Q))
    : result (list shown) :=
  match current_value with
  | PNone => mret []
  | _ =>
      if bool_decide (sensor = "Occupancy") then mret []
      else
        value ← (if is_unknown current_value then mret None
                 else Some <$> float current_value);
        let delta :=
          round2 (match value with Some v => v - last_historic_value | None => 0 end)%Q in
        ideal ← getitem ideal_values sensor;
        current ← match value with
                  | Some v =>
                      mret (Metric ("current " +:+ sensor) v unit delta
                                   (pick_delta_color v ideal delta))
                  | None => Raise TypeError
                  end;
        predicted ← match first_prediction predictions with
                    | Some p =>
                        now_value ← float current_value;
                        let value := round2 p in
                        let delta := round2 (p - now_value) in
                        mret [Metric (sensor +:+ " in 15 minutes") value unit delta
                                     (pick_delta_color value ideal delta)]
                    | None => mret []
                    end;
        '(text, in_range) ← check_for_warnings sensor current_value unit;
        notes ← (if in_range : bool then
                   later ← match first_prediction predictions with
                           | Some p =>
                               '(later_text, later_in_range) ←
                                 check_for_warnings sensor (PNum p) unit;
                               mret (if later_in_range : bool then []
                                     else [Warning ("In 15 minutes: " +:+ later_text)])
                           | None => mret []
                           end;
                   mret (Success text :: later)
                 else mret [Warning text]);
        mret (current :: predicted ++ notes)
  end.

(** The methods that [class Dashboard] defines. *)
Definition Dashboard_methods : list string :=
  ["__init__"; "create_interactive_room_buttons"; "check_for_warnings";
   "show_current_data"; "show_occupancy_info"; "store_training_data";
   "show_sensor_gauge"; "display_combined_graph"; "display_historical_graph";
   "predict_data"; "display_future_graph"; "stream_sensor_info"; "run";
   "set_page_style"; "show_warnings"].

(** Lines 364-367: the name of the method looked up on [self] for the
    graph; a list is true when it is not empty. *)
Definition graph_method (sensor : string) (predictions : option (list Q))
    (future_times : option (list Z)) : string :=
  let truthy {A} (l : option (list A)) :=
    match l with Some (_ :: _) => true | _ => false end in
  if bool_decide (sensor = "Microphone Noise Level")
     || negb (truthy predictions && truthy future_times)
  then "display_historyic_graph"
  else "display_combined_graph".

End Panel.

(** ** The info streams (app.py, [stream_sensor_info]) *)

Module Info.
Import PyStr.

(** The generator [stream_data]: the chunks it yields, in order. *)
Definition stream_data (text : string) : list string :=
  (λ word, word +:+ " ") <$> split " " text.

End Info.

(** ** The training log (app.py, [store_training_data]) *)

Module Training.

(** A cell of the CSV file. *)
Inductive cell : Type :=
| CText (s : string)
| CValue (v : pyvalue)
| CNumber (q : Q)
| CInt (n : Z).

Definition header : list cell :=
  CText <$> ["CO2"; "Temperature"; "Humidity"; "IAQ"; "Noise_Level"; "Pressure";
             "Light_Level"; "Gas_Resistance"; "Room_Volume"; "Datetime"; "Label"].

(** One submission: the eight readings, the room volume and the label. *)
Record submission : Type := {
  readings : list pyvalue;
  room_volume_of : Q;
  label : Z;
}.

(** What is found at [training_data/training_data.csv]: the directory may
    be missing, or only the file, or the file holds rows.  Other states of
    the file system (a directory under that name, no right to write) are
    left out. *)
Inductive csv_state : Type :=
| NoDirectory
| NoFile
| File (rows : list (list cell)).

(** [store_training_data]; [current_datetime] is the formatted
    [datetime.now()].  [os.path.isfile] is true for a file only; opening in
    append mode creates a missing file, but not a missing directory. *)
Definition store_training_data (state : csv_state) (entry : submission)
    (current_datetime : string) : result csv_state :=
  let file_exists := match state with File _ => true | _ => false end in
  rows ← match state with
         | NoDirectory => Raise FileNotFoundError
         | NoFile => Ok []
         | File rows => Ok rows
         end;
  let rows := if file_exists then rows else rows ++ [header] in
  mret (File (rows ++ [(CValue <$> readings entry)
                       ++ [CNumber (room_volume_of entry); CText current_datetime;
                           CInt (label entry)]])).

(** One call per submission, in order, until one raises. *)
Definition store_all (state : csv_state) (entries : list (submission * string))
    : result csv_state :=
  foldl (λ before item, state ← before; store_training_data state item.1 item.2)
        (Ok state) entries.

End Training.

(** * Properties *)

Import Thresholds Occupancy Forecast WindowSpec Examples.

(** ** Arithmetic of the Python layer *)

Section PyFacts.

Lemma Qlt_bool_iff (x y : Q) : Qlt_bool x y = true ↔ (x < y)%Q.
Proof.
  unfold Qlt_bool. rewrite negb_true_iff. split.
  - intros Hle. apply Qnot_le_lt. intros Hyx.
    apply Qle_bool_iff in Hyx. congruence.
  - intros Hlt. destruct (Qle_bool y x) eqn:Hle; [|done].
    apply Qle_bool_iff in Hle. exfalso. exact (Qlt_not_le _ _ Hlt Hle).
Qed.

Lemma Qlt_bool_false_iff (x y : Q) : Qlt_bool x y = false ↔ (y <= x)%Q.
Proof.
  unfold Qlt_bool. rewrite negb_false_iff. apply Qle_bool_iff.
Qed.

Lemma max0_nonneg (p : pyfloat) : (0 <= max0 p)%Q.
Proof.
  destruct p as [|q]; simpl; [apply Qle_refl|].
  destruct (Qlt_bool 0 q) eqn:Hq; [|apply Qle_refl].
  apply Qlt_le_weak. by apply Qlt_bool_iff.
Qed.

Lemma is_unknown_true (v : pyvalue) : is_unknown v = true ↔ v = PStr "unknown".
Proof.
  destruct v as [|s|q]; simpl; try (split; [discriminate|discriminate]).
  rewrite bool_decide_eq_true. split; [by intros ->|by intros [= ->]].
Qed.

Lemma is_unknown_false (v : pyvalue) : v ≠ PStr "unknown" → is_unknown v = false.
Proof.
  intros Hv. destruct (is_unknown v) eqn:Hu; [|done].
  by apply is_unknown_true in Hu.
Qed.

End PyFacts.

(** ** Threshold evaluation *)

Section ThresholdFacts.

Lemma comfort_kinds_complete (sensor : string) :
  sensor ∉ comfort_kinds → warnings !! sensor = None.
Proof.
  intros Hout. unfold warnings.
  repeat (rewrite lookup_insert_ne;
          [|intros <-; apply Hout; unfold comfort_kinds; set_solver]).
  apply lookup_empty.
Qed.

Lemma warnings_lookup_kind (sensor : string) (entry : tiers) :
  warnings !! sensor = Some entry → sensor ∈ comfort_kinds.
Proof.
  intros Hin. destruct (decide (sensor ∈ comfort_kinds)) as [|Hout]; [done|].
  apply comfort_kinds_complete in Hout. congruence.
Qed.

(** The three outcomes of the check on a number, for any table. *)
Lemma check_low_breach table sensor entry x unit lo m :
  table !! sensor = Some entry →
  entry !! "too_low" = Some (lo, m) →
  (x < inject_Z lo)%Q →
  check_for_warnings_in table sensor (PNum x) unit = Ok (m, false).
Proof.
  intros Ht Hlo Hx. unfold check_for_warnings_in, low_breach. simpl.
  rewrite Ht, Hlo. simpl.
  apply Qlt_bool_iff in Hx. by rewrite Hx.
Qed.

Lemma low_breach_none (entry : tiers) (x : Q) :
  (∀ lo m, entry !! "too_low" = Some (lo, m) → (inject_Z lo <= x)%Q) →
  low_breach entry (PNum x) = Ok None.
Proof.
  intros Hlo. unfold low_breach.
  destruct (entry !! "too_low") as [[lo m]|] eqn:E; [|done].
  simpl. specialize (Hlo lo m eq_refl).
  apply Qlt_bool_false_iff in Hlo. by rewrite Hlo.
Qed.

Lemma high_breach_none (entry : tiers) (x : Q) :
  (∀ hi m, entry !! "too_high" = Some (hi, m) → (x <= inject_Z hi)%Q) →
  high_breach entry (PNum x) = Ok None.
Proof.
  intros Hhi. unfold high_breach.
  destruct (entry !! "too_high") as [[hi m]|] eqn:E; [|done].
  simpl. specialize (Hhi hi m eq_refl).
  apply Qlt_bool_false_iff in Hhi. by rewrite Hhi.
Qed.

Lemma check_high_breach table sensor entry x unit hi m :
  table !! sensor = Some entry →
  entry !! "too_high" = Some (hi, m) →
  (inject_Z hi < x)%Q →
  (∀ lo m', entry !! "too_low" = Some (lo, m') → (inject_Z lo <= x)%Q) →
  check_for_warnings_in table sensor (PNum x) unit = Ok (m, false).
Proof.
  intros Ht Hhi Hx Hlo. unfold check_for_warnings_in. simpl.
  rewrite Ht, (low_breach_none _ _ Hlo). simpl.
  unfold high_breach. rewrite Hhi. simpl.
  apply Qlt_bool_iff in Hx. by rewrite Hx.
Qed.

Lemma check_in_range table sensor entry x unit :
  table !! sensor = Some entry →
  (∀ lo m, entry !! "too_low" = Some (lo, m) → (inject_Z lo <= x)%Q) →
  (∀ hi m, entry !! "too_high" = Some (hi, m) → (x <= inject_Z hi)%Q) →
  check_for_warnings_in table sensor (PNum x) unit
  = Ok (sensor +:+ " value is within a comfortable range.", true).
Proof.
  intros Ht Hlo Hhi. unfold check_for_warnings_in. simpl.
  rewrite Ht, (low_breach_none _ _ Hlo). simpl.
  by rewrite (high_breach_none _ _ Hhi).
Qed.

End ThresholdFacts.

Section ThresholdClaims.

Ltac kind_cases H :=
  unfold comfort_kinds in H;
  repeat (apply elem_of_cons in H as [->|H]);
  [..|by apply elem_of_nil in H].

Lemma low_message_cases (sensor : string) (entry : tiers) (lo : Z) (m : string) :
  warnings !! sensor = Some entry →
  entry !! "too_low" = Some (lo, m) →
  m ∈ ["It's too cold to concentrate. Consider turning up the heat.";
       "The air is too dry. Consider increasing ventilation or opening a window.";
       "Atmospheric pressure is low. It might feel stuffy. Consider opening a window.";
       "Light levels are too low. Consider turning on more lights."].
Proof.
  intros Hentry Hlo. pose proof (warnings_lookup_kind _ _ Hentry) as Hkind.
  kind_cases Hkind; unfold warnings in Hentry; simplify_map_eq;
    repeat first [apply list_elem_of_here | apply list_elem_of_further].
Qed.

Lemma check_high_only table sensor entry x unit :
  table !! sensor = Some entry →
  entry !! "too_low" = None →
  check_for_warnings_in table sensor (PNum x) unit
  = Ok (sensor +:+ " value is within a comfortable range.", true)
  ∨ ∃ hi m, entry !! "too_high" = Some (hi, m)
            ∧ check_for_warnings_in table sensor (PNum x) unit = Ok (m, false).
Proof.
  intros Ht Hlow.
  assert (∀ lo m, entry !! "too_low" = Some (lo, m) → (inject_Z lo <= x)%Q)
    as Hlo by (intros lo m E; congruence).
  destruct (entry !! "too_high") as [[hi m]|] eqn:Hhi.
  - destruct (Qlt_bool (inject_Z hi) x) eqn:Hx.
    + right. exists hi, m. split; [done|].
      apply Qlt_bool_iff in Hx. by eapply check_high_breach.
    + left. apply Qlt_bool_false_iff in Hx.
      eapply check_in_range; [done|done|].
      intros hi' m' E. rewrite Hhi in E. by simplify_eq.
  - left. eapply check_in_range; [done|done|]. intros hi' m' E. congruence.
Qed.

Lemma low_message_not_returned sensor entry x unit sensor' entry' lo m flag :
  warnings !! sensor = Some entry →
  entry !! "too_low" = None →
  warnings !! sensor' = Some entry' →
  entry' !! "too_low" = Some (lo, m) →
  check_for_warnings sensor (PNum x) unit ≠ Ok (m, flag).
Proof.
  intros Hentry Hnone Hentry' Hlow.
  pose proof (low_message_cases _ _ _ _ Hentry' Hlow) as Hm.
  pose proof (warnings_lookup_kind _ _ Hentry) as Hkind.
  unfold check_for_warnings.
  destruct (check_high_only warnings sensor entry x unit Hentry Hnone)
    as [->|(hi & m' & Hhi & ->)].
  - kind_cases Hkind; repeat (apply elem_of_cons in Hm as [->|Hm]);
      try (by apply elem_of_nil in Hm); simpl; discriminate.
  - kind_cases Hkind; unfold warnings in Hentry; simplify_map_eq;
      repeat (apply elem_of_cons in Hm as [->|Hm]);
      try (by apply elem_of_nil in Hm); discriminate.
Qed.

(** C7.  For a kind of the comfort table and a numeric value: a value
    strictly below the too_low bound gives that tier's message and
    [false]; otherwise a value strictly above the too_high bound gives that
    tier's message and [false]; otherwise the result is
    ("<kind> value is within a comfortable range.", true).  A value exactly
    at a bound is in range (Temperature 18 is, 17.9 is not), and a kind
    without a too_low entry never returns any low-bound message of the
    table. *)
Theorem check_for_warnings_tiers (sensor : string) (entry : tiers) (x : Q) (unit : string) :
  warnings !! sensor = Some entry →
  (∀ lo m, entry !! "too_low" = Some (lo, m) → (x < inject_Z lo)%Q →
     check_for_warnings sensor (PNum x) unit = Ok (m, false))
  ∧ (∀ hi m, entry !! "too_high" = Some (hi, m) → (inject_Z hi < x)%Q →
     (∀ lo m', entry !! "too_low" = Some (lo, m') → (inject_Z lo <= x)%Q) →
     check_for_warnings sensor (PNum x) unit = Ok (m, false))
  ∧ ((∀ lo m, entry !! "too_low" = Some (lo, m) → (inject_Z lo <= x)%Q) →
     (∀ hi m, entry !! "too_high" = Some (hi, m) → (x <= inject_Z hi)%Q) →
     check_for_warnings sensor (PNum x) unit
     = Ok (sensor +:+ " value is within a comfortable range.", true))
  ∧ (entry !! "too_low" = None →
     ∀ sensor' entry' lo m flag,
       warnings !! sensor' = Some entry' →
       entry' !! "too_low" = Some (lo, m) →
       check_for_warnings sensor (PNum x) unit ≠ Ok (m, flag))
  ∧ check_for_warnings "Temperature" (PNum 18) unit
    = Ok ("Temperature value is within a comfortable range.", true)
  ∧ check_for_warnings "Temperature" (PNum (179 # 10)) unit
    = Ok ("It's too cold to concentrate. Consider turning up the heat.", false).
Proof.
  intros Hentry. unfold check_for_warnings. repeat split.
  - intros lo m Hlo Hx. by eapply check_low_breach.
  - intros hi m Hhi Hx Hlo. by eapply check_high_breach.
  - intros Hlo Hhi. by eapply check_in_range.
  - intros Hnone sensor' entry' lo m flag Hentry' Hlow.
    by eapply low_message_not_returned.
Qed.

Lemma check_for_warnings_tiers_witness :
  ∃ entry, warnings !! "Temperature" = Some entry
    ∧ check_for_warnings "Temperature" (PNum 17) "C"
      = Ok ("It's too cold to concentrate. Consider turning up the heat.", false).
Proof.
  eexists. split.
  - reflexivity.
  - refine (proj1 (check_for_warnings_tiers "Temperature" _ 17 "C" _) 18 _ _ _);
      reflexivity.
Defined.

(** C8.  Whatever the kind and whatever the table, the value ['unknown']
    gives ("<kind> has no current value.", true): the result does not
    depend on the table, which is not looked up on that path. *)
Theorem check_for_warnings_unknown (table : gmap string tiers) (sensor unit : string) :
  check_for_warnings_in table sensor (PStr "unknown") unit
  = Ok (sensor +:+ " has no current value.", true)
  ∧ check_for_warnings sensor (PStr "unknown") unit
    = Ok (sensor +:+ " has no current value.", true)
  ∧ check_for_warnings "CO2" (PStr "unknown") "ppm"
    = Ok ("CO2 has no current value.", true).
Proof. repeat split. Qed.

(** C10.  A kind outside the ten keys of the comfort table, with any value
    other than ['unknown'] (a number, [None] or any other string), raises
    nothing and is reported in range. *)
Theorem check_for_warnings_unlisted_kind (sensor : string) (value : pyvalue) (unit : string) :
  sensor ∉ comfort_kinds →
  value ≠ PStr "unknown" →
  check_for_warnings sensor value unit
  = Ok (sensor +:+ " value is within a comfortable range.", true).
Proof.
  intros Hkind Hvalue. unfold check_for_warnings, check_for_warnings_in.
  rewrite (is_unknown_false _ Hvalue), (comfort_kinds_complete _ Hkind).
  reflexivity.
Qed.

Lemma check_for_warnings_unlisted_kind_witness :
  check_for_warnings "TOF Distance" PNone "m"
  = Ok ("TOF Distance value is within a comfortable range.", true).
Proof.
  apply (check_for_warnings_unlisted_kind "TOF Distance" PNone "m").
  - unfold comfort_kinds. intros Hin.
    repeat (apply elem_of_cons in Hin as [Hin|Hin]; [discriminate Hin|]).
    by apply elem_of_nil in Hin.
  - discriminate.
Defined.

End ThresholdClaims.

(** ** Occupancy estimate *)

Section OccupancyFacts.




Lemma Qeq_bool_false (x y : Q) : ¬ (x == y)%Q → Qeq_bool x y = false.
Proof.
  intros Hne. destruct (Qeq_bool x y) eqn:E; [|done].
  by apply Qeq_bool_iff in E.
Qed.



End OccupancyFacts.

Section OccupancyClaims.




End OccupancyClaims.

Section OccupancyBinary64Claims.
Import Binary64.

(** The binary64 estimator once the store lookups have succeeded. *)
Lemma calculate_occupancy_binary64_numeric data room_id entry co2 c
    baseline emission elapsed :
  data !! room_id = Some entry →
  sensors entry !! "CO2" = Some co2 →
  current_value co2 = PNum c →
  OccupancyBinary64.calculate_occupancy data room_id baseline emission elapsed
  = if negb (is_zero (of_Q c)) then
      room_volume_float ← of_int (int (volume entry));
      people_count ← div (quot (mul (sub (of_Q c) baseline) room_volume_float)
                               (of_Z 1000))
                         (mul emission (quot elapsed (of_Z 3600)));
      rounded ← round people_count;
      mret (Z.max 0 rounded)
    else Ok 0.
Proof.
  intros Hroom Hco2 Hval. unfold OccupancyBinary64.calculate_occupancy, getitem.
  rewrite Hroom. simpl. rewrite Hco2. simpl. rewrite Hval. simpl.
  destruct (is_zero (of_Q c)); [done|]. simpl.
  by destruct (of_int (int (volume entry))).
Qed.

(** C3, as the code has it.  Every float operation is the binary64 one
    (round to nearest, ties to even) and the room volume is truncated to an
    integer first.  A current CO2 value of 0 gives 0.  Otherwise, with a
    non-zero denominator rate * (elapsed / 3600) and a finite quotient, the
    estimate is
    max(0, round(((co2 - baseline) * int(volume) / 1000) / (rate * (elapsed / 3600)))),
    [round] taking the exact value of the double to the nearest integer,
    ties to even; when the stored volume is a whole number this is the
    specification's formula evaluated in binary64; and the documented
    example (1000 ppm, 67.39 cubic metres) gives 2. *)
Theorem calculate_occupancy_formula data room_id entry co2 c baseline emission elapsed :
  data !! room_id = Some entry →
  sensors entry !! "CO2" = Some co2 →
  current_value co2 = PNum c →
  (is_zero (of_Q c) = true →
     OccupancyBinary64.calculate_occupancy data room_id baseline emission elapsed
     = Ok 0)
  ∧ (∀ room_volume,
       is_zero (of_Q c) = false →
       of_int (int (volume entry)) = Ok room_volume →
       let denominator := mul emission (quot elapsed (of_Z 3600)) in
       let people_count :=
         quot (quot (mul (sub (of_Q c) baseline) room_volume) (of_Z 1000))
              denominator in
       is_zero denominator = false →
       is_finite people_count = true →
       OccupancyBinary64.calculate_occupancy data room_id baseline emission elapsed
       = Ok (Z.max 0 (Py.round (value people_count)))
       ∧ (of_Q (volume entry) = room_volume →
          OccupancyBinary64.calculate_occupancy data room_id baseline emission elapsed
          = OccupancyBinary64.spec_people (of_Q c) (of_Q (volume entry))
                                          baseline emission elapsed))
  ∧ OccupancyBinary64.calculate_occupancy
      (one_room "CO2" (PNum 1000) (6739 # 100) []) "multisensor_115"
      (of_Z 550) (of_Z 18) (of_Z 3600) = Ok 2.
Proof.
  intros Hroom Hco2 Hval.
  rewrite (calculate_occupancy_binary64_numeric _ _ _ _ _ _ _ _ Hroom Hco2 Hval).
  split; [by intros ->|]. split; [|by vm_compute].
  intros room_volume -> Hvolume denominator people_count Hden Hfinite. cbn [negb].
  rewrite Hvolume. cbn [mbind result_bind]. unfold div. fold denominator.
  rewrite Hden. cbn [mbind result_bind]. fold people_count.
  assert (round people_count = Ok (Py.round (value people_count))) as Hround
    by (by destruct people_count).
  rewrite Hround. split; [done|].
  intros Hwhole. unfold OccupancyBinary64.spec_people.
  rewrite Hwhole. fold denominator. fold people_count. by rewrite Hround.
Qed.

Lemma calculate_occupancy_formula_witness :
  OccupancyBinary64.calculate_occupancy
    (one_room "CO2" (PNum 577) 50 []) "multisensor_115" (of_Z 550) (of_Z 18) (of_Z 60)
  = Ok 5.
Proof.
  refine (proj1 (proj1 (proj2 (calculate_occupancy_formula
            (one_room "CO2" (PNum 577) 50 []) "multisensor_115"
            (conference_space "CO2" (PNum 577) 50 []) (reading (PNum 577) [])
            577 (of_Z 550) (of_Z 18) (of_Z 60) _ _ _))
            (of_Z 50) _ _ _ _)).
  - reflexivity.
  - reflexivity.
  - reflexivity.
  - reflexivity.
  - reflexivity.
  - reflexivity.
  - reflexivity.
Defined.

(** C3 fails as stated: for Conference-Space (21.06 * 3.2 cubic metres) at
    684 ppm the specification's formula gives round(0.5017) = 1, the code
    truncates the volume to 67 and gives round(0.4988) = 0. *)
Lemma calculate_occupancy_truncates_volume :
  OccupancyBinary64.calculate_occupancy
    (one_room "CO2" (PNum 684) (literal_product (2106 # 100) (32 # 10)) [])
    "multisensor_115" (of_Z 550) (of_Z 18) (of_Z 3600) = Ok 0
  ∧ OccupancyBinary64.spec_people
      (of_Z 684) (of_Q (literal_product (2106 # 100) (32 # 10)))
      (of_Z 550) (of_Z 18) (of_Z 3600) = Ok 1.
Proof. split; by vm_compute. Qed.

End OccupancyBinary64Claims.

Section OccupancyRemarks.

(** Without a number in the store the estimator does not reach its
    [else] branch: [float(...)] raises first, on ['unknown'] as on [None]. *)
Remark calculate_occupancy_without_number :
  calculate_occupancy (one_room "CO2" (PStr "unknown") 50 []) "multisensor_115"
                      550 18 3600 = Raise ValueError
  ∧ calculate_occupancy (one_room "CO2" PNone 50 []) "multisensor_115"
                        550 18 3600 = Raise TypeError.
Proof. split; reflexivity. Qed.

(** Where the two models of the estimator part.  The exact quotient
    ((577 - 550) * 50 / 1000) / (18 * (60 / 3600)) is 4.5, which rounds to
    the even 4; in binary64 the rounded operations give a quotient a
    little over 4.5, and Python returns 5.  In Conference-Space at the
    defaults, the double nearest to 1490.2985074626865 gives a binary64
    quotient of exactly 3.5, hence 4, where the exact quotient is a little
    under 3.5.  The exact model is used only for statements that do not
    depend on which side of a tie a quotient falls. *)
Remark calculate_occupancy_near_a_tie :
  Occupancy.calculate_occupancy (one_room "CO2" (PNum 577) 50 []) "multisensor_115"
                                550 18 60 = Ok 4
  ∧ OccupancyBinary64.calculate_occupancy
      (one_room "CO2" (PNum 577) 50 []) "multisensor_115"
      (Binary64.of_Z 550) (Binary64.of_Z 18) (Binary64.of_Z 60) = Ok 5
  ∧ Occupancy.calculate_occupancy
      (one_room "CO2" (PNum (Binary64.value
                               (Binary64.of_Q (14902985074626865 # 10000000000000))))
                (Binary64.literal_product (2106 # 100) (32 # 10)) [])
      "multisensor_115" 550 18 3600 = Ok 3
  ∧ OccupancyBinary64.calculate_occupancy
      (one_room "CO2" (PNum (14902985074626865 # 10000000000000))
                (Binary64.literal_product (2106 # 100) (32 # 10)) [])
      "multisensor_115"
      (Binary64.of_Z 550) (Binary64.of_Z 18) (Binary64.of_Z 3600) = Ok 4.
Proof. repeat split; by vm_compute. Qed.

End OccupancyRemarks.

(** ** Trend forecast: the turning-point scan *)

Section TurningPoint.

Implicit Types (values : list Q) (i k start : nat).

Lemma index_lookup {A} (l : list A) (i : nat) (a : A) :
  l !! i = Some a → index l i = Ok a.
Proof. intros H. unfold index. by rewrite H. Qed.

Lemma index_in_range {A} (l : list A) (i : nat) :
  (i < length l)%nat → ∃ a, l !! i = Some a ∧ index l i = Ok a.
Proof.
  intros Hi. destruct (lookup_lt_is_Some_2 l i Hi) as [a Ha].
  exists a. split; [done|by apply index_lookup].
Qed.

(** Inside the list the test raises nothing and decides [local_extremum]. *)
Lemma is_turning_point_spec values i :
  (1 ≤ i)%nat → (i + 1 < length values)%nat →
  ∃ hit, is_turning_point values i = Ok hit
         ∧ (hit = true ↔ local_extremum values i).
Proof.
  intros Hlo Hhi.
  destruct (index_in_range values i) as (v & Hv & Ev); [lia|].
  destruct (index_in_range values (i - 1)) as (b & Hb & Eb); [lia|].
  destruct (index_in_range values (i + 1)) as (a & Ha & Ea); [lia|].
  unfold is_turning_point. rewrite Ev. simpl. rewrite Eb. simpl. rewrite Ea. simpl.
  eexists. split; [reflexivity|].
  rewrite orb_true_iff, !andb_true_iff, !Qlt_bool_iff. split.
  - intros Hcases. exists b, v, a. by repeat split.
  - intros (b' & v' & a' & Hb' & Hv' & Ha' & Hcases). by simplify_eq.
Qed.

(** The scan from [start] down to 1 returns the largest extremum index not
    above [start], or [None] when there is none. *)
Lemma search_turning_point_spec values start :
  (start = 0 ∨ start + 1 < length values)%nat →
  ∃ found, search_turning_point values start = Ok found
    ∧ match found with
      | Some k => (1 ≤ k ≤ start)%nat ∧ local_extremum values k
                  ∧ ∀ j, (k < j ≤ start)%nat → ¬ local_extremum values j
      | None => ∀ j, (1 ≤ j ≤ start)%nat → ¬ local_extremum values j
      end.
Proof.
  induction start as [|below IH]; intros Hrange.
  - exists None. split; [done|]. intros j Hj. lia.
  - destruct (is_turning_point_spec values (S below)) as (hit & Ehit & Hhit);
      [lia|lia|].
    simpl. rewrite Ehit. simpl. destruct hit.
    + exists (Some (S below)). split; [done|].
      split; [lia|]. split; [by apply Hhit|]. intros j Hj. lia.
    + destruct IH as (found & Efound & Hfound); [lia|].
      exists found. split; [done|].
      assert (¬ local_extremum values (S below)) as Hno.
      { intros Hext. apply Hhit in Hext. discriminate. }
      destruct found as [k|].
      * destruct Hfound as (Hk & Hext & Hlater). split; [lia|]. split; [done|].
        intros j Hj. destruct (decide (j = S below)) as [->|]; [done|].
        apply Hlater. lia.
      * intros j Hj. destruct (decide (j = S below)) as [->|]; [done|].
        apply Hfound. lia.
Qed.

Lemma scan_start_in_range values :
  (length values - 2 = 0 ∨ length values - 2 + 1 < length values)%nat.
Proof. lia. Qed.

(** The scan of [predict_data] finds exactly the most recent extremum. *)
Lemma search_most_recent values k :
  most_recent_extremum values k →
  search_turning_point values (length values - 2) = Ok (Some k).
Proof.
  intros ((Hk1 & Hk2) & Hext & Hlater).
  destruct (search_turning_point_spec values (length values - 2)
              (scan_start_in_range values)) as (found & -> & Hfound).
  destruct found as [k'|].
  - destruct Hfound as (Hk' & Hext' & Hlater'). do 2 f_equal.
    destruct (lt_eq_lt_dec k k') as [[Hlt|Heq]|Hgt]; [|done|].
    + exfalso. apply (Hlater k'); [done| |done]. unfold scanned. lia.
    + exfalso. apply (Hlater' k); [lia|done].
  - exfalso. apply (Hfound k); [lia|done].
Qed.

Lemma search_no_extremum values :
  (∀ i, scanned values i → ¬ local_extremum values i) →
  search_turning_point values (length values - 2) = Ok None.
Proof.
  intros Hnone.
  destruct (search_turning_point_spec values (length values - 2)
              (scan_start_in_range values)) as (found & -> & Hfound).
  destruct found as [k|]; [|done].
  destruct Hfound as (Hk & Hext & _). exfalso. by apply (Hnone k).
Qed.

End TurningPoint.

(** ** Trend forecast: the candidate window *)

Section CandidateWindow.

Context {A B : Type}.

(** Reading a list back through the indices of [enumerate] gives the list;
    [pre] is the part of the list already passed. *)
Lemma mapM_index_enumerate (xs : list A) (l pre : list B) :
  length xs = length l →
  mapM (index (pre ++ l)) (imap (λ i x, ((length pre + i)%nat, x)) xs).*1 = Ok l.
Proof.
  revert l pre. induction xs as [|x xs IH]; intros l pre Hlen.
  - destruct l; [done|discriminate].
  - destruct l as [|b l]; [discriminate|]. injection Hlen as Hlen.
    rewrite imap_cons. cbn [fmap list_fmap fst mapM].
    rewrite (index_lookup _ _ b) by (by rewrite Nat.add_0_r, list_lookup_middle).
    cbn [mbind result_bind].
    rewrite (imap_ext _ (λ i x, ((length (pre ++ [b]) + i)%nat, x))).
    2:{ intros i y _. simpl. rewrite length_app. simpl. f_equal. lia. }
    specialize (IH l (pre ++ [b]) Hlen).
    rewrite <- app_assoc in IH. simpl in IH. cbn [fmap list_fmap] in IH.
    by rewrite IH.
Qed.

(** The same through the indices that pass a test on [xs]: what is read is
    the components of the pairs that pass. *)
Lemma mapM_index_filter (P : A → Prop) `{!∀ x, Decision (P x)}
    (xs : list A) (l pre : list B) :
  length xs = length l →
  mapM (index (pre ++ l))
       (filter (λ p, P p.2) (imap (λ i x, ((length pre + i)%nat, x)) xs)).*1
  = Ok (filter (λ p, P p.1) (zip xs l)).*2.
Proof.
  revert l pre. induction xs as [|x xs IH]; intros l pre Hlen.
  - destruct l; [done|discriminate].
  - destruct l as [|b l]; [discriminate|]. injection Hlen as Hlen.
    rewrite imap_cons.
    rewrite (imap_ext _ (λ i x, ((length (pre ++ [b]) + i)%nat, x))).
    2:{ intros i y _. simpl. rewrite length_app. simpl. f_equal. lia. }
    specialize (IH l (pre ++ [b]) Hlen).
    rewrite <- app_assoc in IH. simpl in IH.
    cbn [zip_with]. rewrite !filter_cons. simpl.
    destruct (decide (P x)) as [HP|HP].
    + cbn [fmap list_fmap fst snd mapM].
      rewrite (index_lookup _ _ b) by (by rewrite Nat.add_0_r, list_lookup_middle).
      cbn [mbind result_bind]. cbn [fmap list_fmap] in IH. by rewrite IH.
    + done.
Qed.

End CandidateWindow.

Section CandidateWindowZ.

Lemma filter_zip_fst {B} (P : Z → Prop) `{!∀ x, Decision (P x)}
    (ts : list Z) (l : list B) :
  length ts = length l →
  (filter (λ p, P p.1) (zip ts ts)).*2 = (filter (λ p, P p.1) (zip ts l)).*1.
Proof.
  revert l. induction ts as [|t ts IH]; intros l Hlen.
  - done.
  - destruct l as [|b l]; [discriminate|]. injection Hlen as Hlen.
    cbn [zip_with]. rewrite !filter_cons. cbn [fst].
    destruct (decide (P t)); [rewrite !fmap_cons; cbn [fst snd]; f_equal|];
      by apply IH.
Qed.

Lemma enumerate_indices_all (timestamps : list Z) (values : list Q) :
  length timestamps = length values →
  mapM (index timestamps) (enumerate timestamps).*1 = Ok timestamps
  ∧ mapM (index values) (enumerate timestamps).*1 = Ok values.
Proof.
  intros Hlen. split.
  - exact (mapM_index_enumerate timestamps timestamps [] eq_refl).
  - exact (mapM_index_enumerate timestamps values [] Hlen).
Qed.

Lemma recent_indices_window (timestamps : list Z) (values : list Q) (newest : Z) :
  length timestamps = length values →
  let indices := recent_indices_since (newest - timedelta 2 0 0 0) timestamps in
  let window := last_two_hours timestamps values newest in
  mapM (index timestamps) indices = Ok window.*1
  ∧ mapM (index values) indices = Ok window.*2.
Proof.
  intros Hlen indices window. split.
  - unfold indices, window, recent_indices_since, last_two_hours, enumerate.
    rewrite <- (filter_zip_fst (λ t, newest - timedelta 2 0 0 0 ≤ t) _ values Hlen).
    exact (mapM_index_filter (λ t, newest - timedelta 2 0 0 0 ≤ t)
             timestamps timestamps [] eq_refl).
  - exact (mapM_index_filter (λ t, newest - timedelta 2 0 0 0 ≤ t)
             timestamps values [] Hlen).
Qed.

End CandidateWindowZ.

(** ** Trend forecast: the selected window *)

Section SelectedWindow.

Implicit Types (timestamps : list Z) (values : list Q) (sensor : string).

Lemma index_last_nonempty timestamps :
  timestamps ≠ [] → ∃ newest, last timestamps = Some newest
                              ∧ index_last timestamps = Ok newest.
Proof.
  intros Hne. destruct (last timestamps) as [newest|] eqn:E.
  - exists newest. split; [done|]. unfold index_last. by rewrite E.
  - by apply last_None in E.
Qed.

Lemma not_light sensor :
  sensor ∉ no_turning_point_kinds → bool_decide (sensor = "Light") = false.
Proof.
  intros Hout. apply bool_decide_eq_false. intros ->. apply Hout.
  unfold no_turning_point_kinds. set_solver.
Qed.

Lemma mapM_total {A B} (f : A → result B) (g : A → B) (l : list A) :
  (∀ x, f x = Ok (g x)) → mapM f l = Ok (map g l).
Proof.
  intros Hf. induction l as [|x l IH]; [done|].
  change (mapM f (x :: l)) with (y ← f x; k ← mapM f l; mret (y :: k)).
  by rewrite Hf, IH.
Qed.

Lemma seconds_since_start_head (window instants : list Z) (start : Z) :
  head window = Some start →
  seconds_since_start window instants = Ok (seconds_from start instants).
Proof.
  intros Hhead. rewrite head_lookup in Hhead.
  unfold seconds_since_start, seconds_from. apply mapM_total.
  intros ts. by rewrite (index_lookup _ _ _ Hhead).
Qed.

(** With a turning point the window is the slice from it to the end. *)
Lemma select_window_turning sensor timestamps values k :
  sensor ∉ no_turning_point_kinds →
  length timestamps = length values →
  most_recent_extremum values k →
  select_window sensor timestamps values = Ok (drop k timestamps, drop k values).
Proof.
  intros Hkind Hlen Hk.
  pose proof Hk as ((Hk1 & Hk2) & _).
  destruct (index_last_nonempty timestamps) as (newest & _ & Enew).
  { intros ->. simpl in Hlen. lia. }
  destruct (recent_indices_window timestamps values newest Hlen) as [Ets Evs].
  unfold select_window. rewrite Enew. cbn [mbind result_bind].
  rewrite (not_light _ Hkind), Ets. cbn [mbind result_bind]. rewrite Evs.
  cbn [mbind result_bind].
  rewrite (bool_decide_eq_false_2 _ Hkind), (search_most_recent _ _ Hk).
  cbn [mbind result_bind]. destruct k as [|k]; [lia|]. reflexivity.
Qed.

(** Without one the window is the last two hours. *)
Lemma select_window_default sensor timestamps values :
  sensor ∉ no_turning_point_kinds →
  length timestamps = length values →
  timestamps ≠ [] →
  (∀ i, scanned values i → ¬ local_extremum values i) →
  ∃ newest, last timestamps = Some newest
    ∧ select_window sensor timestamps values
      = Ok ((last_two_hours timestamps values newest).*1,
            (last_two_hours timestamps values newest).*2).
Proof.
  intros Hkind Hlen Hne Hnone.
  destruct (index_last_nonempty timestamps Hne) as (newest & Hnew & Enew).
  exists newest. split; [done|].
  destruct (recent_indices_window timestamps values newest Hlen) as [Ets Evs].
  unfold select_window. rewrite Enew. cbn [mbind result_bind].
  rewrite (not_light _ Hkind), Ets. cbn [mbind result_bind]. rewrite Evs.
  cbn [mbind result_bind].
  rewrite (bool_decide_eq_false_2 _ Hkind), (search_no_extremum _ Hnone).
  reflexivity.
Qed.

(** For Light the window is the whole series. *)
Lemma select_window_light timestamps values :
  length timestamps = length values →
  timestamps ≠ [] →
  select_window "Light" timestamps values = Ok (timestamps, values).
Proof.
  intros Hlen Hne.
  destruct (index_last_nonempty timestamps Hne) as (newest & _ & Enew).
  destruct (enumerate_indices_all timestamps values Hlen) as [Ets Evs].
  unfold select_window. rewrite Enew. cbn [mbind result_bind].
  rewrite (bool_decide_eq_true_2 ("Light" = "Light") eq_refl), Ets. cbn [mbind result_bind].
  rewrite Evs. cbn [mbind result_bind].
  rewrite (bool_decide_eq_true_2 ("Light" ∈ no_turning_point_kinds)); [done|].
  unfold no_turning_point_kinds. set_solver.
Qed.

(** The newest reading is always inside the two-hour window. *)
Lemma last_two_hours_nonempty timestamps values newest :
  length timestamps = length values →
  last timestamps = Some newest →
  ∃ start, head (last_two_hours timestamps values newest).*1 = Some start.
Proof.
  intros Hlen Hlast.
  assert (∃ v, (newest, v) ∈ last_two_hours timestamps values newest) as [v Hin].
  { apply last_Some in Hlast as [ts' ->].
    destruct (lookup_lt_is_Some_2 values (length ts')) as [v Hv].
    { rewrite <- Hlen, length_app. simpl. lia. }
    exists v. unfold last_two_hours. apply list_elem_of_filter. split.
    - simpl. unfold timedelta. lia.
    - apply list_elem_of_lookup. exists (length ts').
      apply lookup_zip_with_Some. exists newest, v. split; [done|].
      split; [|done]. by rewrite list_lookup_middle. }
  destruct (last_two_hours timestamps values newest) as [|[t0 v0] rest].
  - by apply elem_of_nil in Hin.
  - by exists t0.
Qed.

(** [predict_data] once the window is known. *)
Lemma predict_data_on_window current_time sensor timestamps values
    (window_ts : list Z) (window_vs : list Q) (start : Z) :
  select_window sensor timestamps values = Ok (window_ts, window_vs) →
  head window_ts = Some start →
  predict_data current_time sensor timestamps values
  = ('(slope, intercept) ← linregress (seconds_from start window_ts) window_vs;
     extrapolate current_time window_ts slope intercept).
Proof.
  intros Hwin Hhead. unfold predict_data. rewrite Hwin.
  cbn [mbind result_bind]. unfold forecast_on.
  by rewrite (seconds_since_start_head _ _ _ Hhead).
Qed.

End SelectedWindow.

Section WindowClaims.

Implicit Types (timestamps : list Z) (values : list Q) (sensor : string).

(** C1.  For a kind outside {Microphone Noise Level, Occupancy, Light} and a
    series of at least 2 points: when [k] is the most recent index, among
    second-to-last down to 1, whose value is strictly above or strictly
    below both neighbours, the regression is run on exactly [values[k:]]
    against the seconds elapsed since [timestamps[k]]; when no such index
    exists it is run on the readings with timestamp >= newest - 2 hours,
    against the seconds elapsed since the first of them. *)
Theorem predict_data_window current_time sensor timestamps values :
  sensor ∉ no_turning_point_kinds →
  length timestamps = length values →
  (2 ≤ length values)%nat →
  (∀ k, most_recent_extremum values k →
     ∃ t_k, timestamps !! k = Some t_k
       ∧ select_window sensor timestamps values
         = Ok (drop k timestamps, drop k values)
       ∧ predict_data current_time sensor timestamps values
         = ('(slope, intercept) ←
              linregress (seconds_from t_k (drop k timestamps)) (drop k values);
            extrapolate current_time (drop k timestamps) slope intercept))
  ∧ ((∀ i, scanned values i → ¬ local_extremum values i) →
     ∃ newest start,
       last timestamps = Some newest
       ∧ head (last_two_hours timestamps values newest).*1 = Some start
       ∧ select_window sensor timestamps values
         = Ok ((last_two_hours timestamps values newest).*1,
               (last_two_hours timestamps values newest).*2)
       ∧ predict_data current_time sensor timestamps values
         = ('(slope, intercept) ←
              linregress
                (seconds_from start (last_two_hours timestamps values newest).*1)
                (last_two_hours timestamps values newest).*2;
            extrapolate current_time
              (last_two_hours timestamps values newest).*1 slope intercept)).
Proof.
  intros Hkind Hlen Hsize. split.
  - intros k Hk. pose proof Hk as ((Hk1 & Hk2) & _).
    destruct (lookup_lt_is_Some_2 timestamps k) as [t_k Ht]; [lia|].
    exists t_k. split; [done|].
    pose proof (select_window_turning _ _ _ _ Hkind Hlen Hk) as Hwin.
    split; [done|].
    apply predict_data_on_window; [done|].
    by rewrite head_lookup, lookup_drop, Nat.add_0_r.
  - intros Hnone.
    destruct (select_window_default sensor timestamps values Hkind Hlen)
      as (newest & Hnew & Hwin); [|done|].
    { intros ->. simpl in Hlen. lia. }
    destruct (last_two_hours_nonempty _ _ _ Hlen Hnew) as [start Hstart].
    exists newest, start. repeat split; [done|done|done|].
    by apply predict_data_on_window.
Qed.

Lemma predict_data_window_witness :
  select_window "CO2" [0; 60000000; 120000000; 180000000] [400; 410; 405; 407]%Q
  = Ok ([120000000; 180000000], [405; 407]%Q).
Proof.
  destruct (proj1 (predict_data_window 0 "CO2"
              [0; 60000000; 120000000; 180000000] [400; 410; 405; 407]%Q
              ltac:(unfold no_turning_point_kinds; intros Hin;
                    repeat (apply elem_of_cons in Hin as [Hin|Hin];
                            [discriminate Hin|]);
                    by apply elem_of_nil in Hin)
              eq_refl ltac:(simpl; lia)) 2%nat) as (t_k & _ & Hwin & _).
  - split; [unfold scanned; simpl; lia|]. split.
    + exists 410%Q, 405%Q, 407%Q. repeat split. right. split; reflexivity.
    + intros j Hj [_ Hscan]. simpl in Hscan. lia.
  - exact Hwin.
Defined.

(** C5.  For Light the regression is run on the whole series handed in:
    every reading is in the window, whatever its age and whatever local
    extrema the values have. *)
Theorem predict_data_light current_time timestamps values :
  length timestamps = length values →
  timestamps ≠ [] →
  ∃ start, head timestamps = Some start
    ∧ select_window "Light" timestamps values = Ok (timestamps, values)
    ∧ predict_data current_time "Light" timestamps values
      = ('(slope, intercept) ← linregress (seconds_from start timestamps) values;
         extrapolate current_time timestamps slope intercept).
Proof.
  intros Hlen Hne. destruct timestamps as [|start rest] eqn:E; [done|].
  exists start. split; [done|]. rewrite <- E in *.
  pose proof (select_window_light _ _ Hlen Hne) as Hwin. split; [done|].
  apply predict_data_on_window; [done|]. by rewrite E.
Qed.

Lemma predict_data_light_witness :
  select_window "Light" [0; 10800000000; 10860000000; 10920000000]
                        [400; 410; 405; 407]%Q
  = Ok ([0; 10800000000; 10860000000; 10920000000], [400; 410; 405; 407]%Q).
Proof.
  destruct (predict_data_light 0 [0; 10800000000; 10860000000; 10920000000]
              [400; 410; 405; 407]%Q eq_refl ltac:(discriminate))
    as (start & _ & Hwin & _).
  exact Hwin.
Defined.

End WindowClaims.

(** ** Trend forecast: the forecast instants and values *)

Section Extrapolation.

(** Subtracting minute mod 15, the seconds and the microseconds floors an
    instant to the quarter hour. *)
Lemma nearest_quarter_hour_floor (current_time : Z) :
  nearest_quarter_hour current_time = 900000000 * (current_time `div` 900000000).
Proof.
  unfold nearest_quarter_hour, timedelta, minute, second, microsecond.
  Z.div_mod_to_equations. lia.
Qed.

Lemma quarter_hour_bounds (current_time : Z) :
  900000000 * (current_time `div` 900000000) ≤ current_time
  < 900000000 * (current_time `div` 900000000) + 900000000.
Proof. Z.div_mod_to_equations. lia. Qed.

Lemma future_times_from_spaced (nearest : Z) :
  future_times_from nearest
  = map (λ i : nat, nearest + 900000000 * Z.of_nat i) (seq 0 25).
Proof.
  unfold future_times_from. apply map_ext. intros i. unfold timedelta. lia.
Qed.

Lemma extrapolate_spec current_time window_ts slope intercept start :
  head window_ts = Some start →
  extrapolate current_time window_ts slope intercept
  = Ok (future_times_from (nearest_quarter_hour current_time),
        map (λ ft, max0 (myfunc slope intercept (total_seconds (ft - start))))
            (future_times_from (nearest_quarter_hour current_time))).
Proof.
  intros Hhead. unfold extrapolate.
  rewrite (seconds_since_start_head _ _ _ Hhead). cbn [mbind result_bind].
  unfold seconds_from. by rewrite !map_map.
Qed.

End Extrapolation.


Section RegressionRuns.

Lemma amax_upper (l : list Q) (a : Q) : a ∈ l → (a <= amax l)%Q.
Proof.
  unfold amax. generalize (hd 0%Q l). intros init.
  induction l as [|b l IH]; intros Ha; [by apply elem_of_nil in Ha|].
  simpl. apply elem_of_cons in Ha as [->|Ha].
  - destruct (Qlt_bool _ b) eqn:E; [apply Qle_refl|].
    by apply Qlt_bool_false_iff in E.
  - specialize (IH Ha). destruct (Qlt_bool _ b) eqn:E; [|done].
    apply Qlt_bool_iff in E. eapply Qle_trans; [exact IH|]. by apply Qlt_le_weak.
Qed.

Lemma amin_lower (l : list Q) (a : Q) : a ∈ l → (amin l <= a)%Q.
Proof.
  unfold amin. generalize (hd 0%Q l). intros init.
  induction l as [|b l IH]; intros Ha; [by apply elem_of_nil in Ha|].
  simpl. apply elem_of_cons in Ha as [->|Ha].
  - destruct (Qlt_bool b _) eqn:E; [apply Qle_refl|].
    by apply Qlt_bool_false_iff in E.
  - specialize (IH Ha). destruct (Qlt_bool b _) eqn:E; [|done].
    apply Qlt_bool_iff in E. eapply Qle_trans; [|exact IH]. by apply Qlt_le_weak.
Qed.

Lemma amax_amin_distinct (l : list Q) (a b : Q) :
  a ∈ l → b ∈ l → ¬ (a == b)%Q → Qeq_bool (amax l) (amin l) = false.
Proof.
  intros Ha Hb Hab. apply Qeq_bool_false. intros Heq. apply Hab.
  pose proof (amax_upper l a Ha). pose proof (amax_upper l b Hb).
  pose proof (amin_lower l a Ha). pose proof (amin_lower l b Hb).
  apply Qle_antisym.
  - eapply Qle_trans; [eassumption|]. by rewrite Heq.
  - eapply Qle_trans; [eassumption|]. by rewrite Heq.
Qed.

(** The regression runs on equally long, non-empty input whose abscissas
    are not all the same. *)
Lemma linregress_runs (x y : list Q) :
  x ≠ [] → length x = length y → Qeq_bool (amax x) (amin x) = false →
  ∃ slope intercept, linregress x y = Ok (slope, intercept).
Proof.
  intros Hx Hlen Hspread. unfold linregress.
  rewrite (bool_decide_eq_false_2 _ Hx).
  assert (y ≠ []) as Hy by (intros ->; by destruct x).
  rewrite (bool_decide_eq_false_2 _ Hy). cbn [orb].
  rewrite (proj2 (Nat.eqb_eq _ _) Hlen). cbn [negb].
  rewrite Hspread, andb_false_r. eauto.
Qed.

Lemma total_seconds_inj (a b : Z) :
  (total_seconds a == total_seconds b)%Q → a = b.
Proof. unfold total_seconds, Qeq. simpl. lia. Qed.

(** On a non-empty series with as many values as timestamps the window
    selection raises nothing, and it keeps timestamps and values paired. *)
Lemma select_window_runs sensor (timestamps : list Z) (values : list Q) :
  length timestamps = length values →
  timestamps ≠ [] →
  ∃ window_ts window_vs,
    select_window sensor timestamps values = Ok (window_ts, window_vs)
    ∧ length window_ts = length window_vs.
Proof.
  intros Hlen Hne. unfold select_window.
  destruct (index_last_nonempty timestamps Hne) as (newest & _ & ->).
  cbn [mbind result_bind].
  destruct (recent_indices_window timestamps values newest Hlen) as [Ets Evs].
  destruct (enumerate_indices_all timestamps values Hlen) as [Ets' Evs'].
  destruct (search_turning_point_spec values (length values - 2)
              (scan_start_in_range values)) as (found & Efound & _).
  assert (∀ (found : option nat) (recent_ts : list Z) (recent_vs : list Q),
            length recent_ts = length recent_vs →
            ∃ window_ts window_vs,
              match found with
              | Some (S k) => mret (drop (S k) timestamps, drop (S k) values)
              | _ => mret (recent_ts, recent_vs)
              end = Ok (window_ts, window_vs)
              ∧ length window_ts = length window_vs) as Hpick.
  { intros [[|k]|] recent_ts recent_vs Hrecent; eexists _, _;
      (split; [reflexivity|]); rewrite ?length_drop; lia. }
  destruct (bool_decide (sensor = "Light")).
  - rewrite Ets'. cbn [mbind result_bind]. rewrite Evs'. cbn [mbind result_bind].
    destruct (bool_decide (sensor ∈ no_turning_point_kinds)).
    + by apply (Hpick None).
    + rewrite Efound. by apply (Hpick found).
  - rewrite Ets. cbn [mbind result_bind]. rewrite Evs. cbn [mbind result_bind].
    destruct (bool_decide (sensor ∈ no_turning_point_kinds)).
    + apply (Hpick None). by rewrite !length_fmap.
    + rewrite Efound. apply (Hpick found). by rewrite !length_fmap.
Qed.

Lemma Qsquare_nonneg (z : Q) : (0 <= z * z)%Q.
Proof.
  destruct (Qlt_le_dec z 0) as [Hneg|Hpos].
  - assert (z * z == (- z) * (- z))%Q as -> by ring.
    apply Qmult_le_0_compat; lra.
  - by apply Qmult_le_0_compat.
Qed.

Lemma sum_nonneg (l : list Q) :
  (∀ a, a ∈ l → (0 <= a)%Q) → (0 <= sum l)%Q.
Proof.
  induction l as [|a l IH]; intros Hall; [apply Qle_refl|].
  change (sum (a :: l)) with (a + sum l)%Q.
  pose proof (Hall a (list_elem_of_here _ _)).
  pose proof (IH (λ b Hb, Hall b (list_elem_of_further _ _ _ Hb))). lra.
Qed.

Lemma sum_zero (l : list Q) :
  (∀ a, a ∈ l → (0 <= a)%Q) → (sum l == 0)%Q → ∀ a, a ∈ l → (a == 0)%Q.
Proof.
  induction l as [|b l IH]; intros Hall Hsum a Ha; [by apply elem_of_nil in Ha|].
  change (sum (b :: l)) with (b + sum l)%Q in Hsum.
  pose proof (Hall b (list_elem_of_here _ _)) as Hb.
  pose proof (sum_nonneg l (λ c Hc, Hall c (list_elem_of_further _ _ _ Hc))) as Hl.
  apply elem_of_cons in Ha as [->|Ha]; [lra|].
  apply IH; [|lra|done]. intros c Hc. apply Hall. by apply list_elem_of_further.
Qed.

Lemma mean_zero (l : list Q) : l ≠ [] → (mean l == 0)%Q → (sum l == 0)%Q.
Proof.
  intros Hne Hmean. unfold mean in Hmean.
  assert (0 < inject_Z (Z.of_nat (length l)))%Q as Hn.
  { change 0%Q with (inject_Z 0). rewrite <- Zlt_Qlt. destruct l; [done|simpl; lia]. }
  assert (sum l == sum l / inject_Z (Z.of_nat (length l))
                   * inject_Z (Z.of_nat (length l)))%Q as ->
    by (field; lra).
  rewrite Hmean. ring.
Qed.

Lemma amax_amin_all_equal (m : Q) (l : list Q) :
  l ≠ [] → (∀ a, a ∈ l → (a == m)%Q) → (amax l == amin l)%Q.
Proof.
  intros Hne Hall.
  assert (∀ (f : Q → Q → Q) (init : Q) (k : list Q),
            (∀ a b, f a b = a ∨ f a b = b) → (init == m)%Q →
            (∀ a, a ∈ k → (a == m)%Q) → (foldr f init k == m)%Q) as Hfold.
  { intros f init k Hf Hinit. induction k as [|a k IH]; intros Hk; [done|].
    simpl. destruct (Hf a (foldr f init k)) as [-> | ->].
    - apply Hk, list_elem_of_here.
    - apply IH. intros b Hb. by apply Hk, list_elem_of_further. }
  assert (hd 0%Q l == m)%Q as Hhd.
  { destruct l as [|a l]; [done|]. apply Hall, list_elem_of_here. }
  unfold amax, amin. rewrite !Hfold; [reflexivity|..]; try done.
  - intros a b. destruct (Qlt_bool a b); auto.
  - intros a b. destruct (Qlt_bool b a); auto.
Qed.

(** With two different abscissas the regression returns a finite slope and
    a finite intercept. *)
Lemma linregress_finite (x y : list Q) :
  x ≠ [] → length x = length y → Qeq_bool (amax x) (amin x) = false →
  ∃ slope intercept : Q, linregress x y = Ok (Fin slope, Fin intercept).
Proof.
  intros Hx Hlen Hspread. unfold linregress.
  rewrite (bool_decide_eq_false_2 _ Hx).
  assert (y ≠ []) as Hy by (intros ->; by destruct x).
  rewrite (bool_decide_eq_false_2 _ Hy). cbn [orb].
  rewrite (proj2 (Nat.eqb_eq _ _) Hlen). cbn [negb].
  rewrite Hspread, andb_false_r.
  destruct (Qeq_bool (mean (map (λ a, (a - mean x) * (a - mean x))%Q x)) 0) eqn:Hvar;
    [|cbn [fmul fsub]; eauto].
  exfalso. apply Qeq_bool_iff in Hvar.
  assert (Qeq_bool (amax x) (amin x) = true) as Hsame; [|congruence].
  apply Qeq_bool_iff, (amax_amin_all_equal (mean x)); [done|].
  intros a Ha.
  assert ((a - mean x) * (a - mean x) == 0)%Q as Hsq.
  { apply (sum_zero (map (λ a, (a - mean x) * (a - mean x))%Q x)).
    - intros b Hb. apply list_elem_of_In, in_map_iff in Hb as (c & <- & _).
      apply Qsquare_nonneg.
    - apply mean_zero; [|done]. by destruct x.
    - apply list_elem_of_In. apply in_map_iff. exists a. split; [done|].
      by apply list_elem_of_In. }
  apply Qmult_integral in Hsq as [Hzero|Hzero]; lra.
Qed.

End RegressionRuns.

Section ForecastClaims.

(** C4.  On a non-empty series with as many values as timestamps a window
    is selected, and whenever that window holds two different instants the
    regression over it returns a finite slope and intercept and the
    forecaster returns, for every "now", 25 instants and 25 values: the
    first instant is "now" floored to the quarter hour, each next one is 15
    minutes later, and each value is slope * t + intercept, with t the
    seconds from the window start to that instant, replaced by 0 when it is
    not positive; hence no value is negative. *)
Theorem predict_data_forecast_points current_time sensor
    (timestamps : list Z) (values : list Q) :
  length timestamps = length values →
  timestamps ≠ [] →
  let quarter := 900000000 * (current_time `div` 900000000) in
  ∃ window_ts window_vs,
    select_window sensor timestamps values = Ok (window_ts, window_vs)
    ∧ ∀ t t', t ∈ window_ts → t' ∈ window_ts → t ≠ t' →
      ∃ start (slope intercept : Q) future_times predictions,
        head window_ts = Some start
        ∧ linregress (seconds_from start window_ts) window_vs
          = Ok (Fin slope, Fin intercept)
        ∧ predict_data current_time sensor timestamps values
          = Ok (future_times, predictions)
        ∧ quarter ≤ current_time < quarter + 900000000
        ∧ future_times
          = map (λ i : nat, quarter + 900000000 * Z.of_nat i) (seq 0 25)
        ∧ predictions
          = map (λ ft,
                   let line := (slope * ((ft - start) # 1000000) + intercept)%Q in
                   if Qle_bool line 0 then 0%Q else line)
                future_times
        ∧ length future_times = 25%nat ∧ length predictions = 25%nat
        ∧ (∀ i ft ft', future_times !! i = Some ft →
                       future_times !! S i = Some ft' → ft' = ft + 900000000)
        ∧ Forall (λ p, (0 <= p)%Q) predictions.
Proof.
  intros Hlen Hne quarter.
  destruct (select_window_runs sensor timestamps values Hlen Hne)
    as (window_ts & window_vs & Hwin & Hpaired).
  exists window_ts, window_vs. split; [done|]. intros t t' Ht Ht' Hdiff.
  assert (∃ start, head window_ts = Some start) as [start Hstart].
  { destruct window_ts as [|start rest]; [by apply elem_of_nil in Ht|by eexists]. }
  destruct (linregress_finite (seconds_from start window_ts) window_vs)
    as (slope & intercept & Hfit).
  { intros Hnil. apply (f_equal length) in Hnil. unfold seconds_from in Hnil.
    rewrite length_map in Hnil. destruct window_ts; [by apply elem_of_nil in Ht|done]. }
  { unfold seconds_from. by rewrite length_map. }
  { apply (amax_amin_distinct _ (total_seconds (t - start)) (total_seconds (t' - start))).
    - apply list_elem_of_In.
      apply (in_map (λ ts, total_seconds (ts - start)) window_ts t).
      by apply list_elem_of_In.
    - apply list_elem_of_In.
      apply (in_map (λ ts, total_seconds (ts - start)) window_ts t').
      by apply list_elem_of_In.
    - intros Heq. apply total_seconds_inj in Heq. lia. }
  exists start, slope, intercept. eexists. eexists.
  split; [done|]. split; [done|]. split.
  { rewrite (predict_data_on_window _ _ _ _ _ _ _ Hwin Hstart), Hfit.
    cbn [mbind result_bind]. apply (extrapolate_spec _ _ _ _ _ Hstart). }
  rewrite nearest_quarter_hour_floor, future_times_from_spaced. fold quarter.
  split; [apply quarter_hour_bounds|]. split; [done|]. split.
  { apply map_ext. intros ft. unfold myfunc, total_seconds. cbn [fmul fadd max0].
    unfold Qlt_bool. by destruct (Qle_bool _ 0). }
  split; [by rewrite length_map, length_seq|].
  split; [by rewrite !length_map, length_seq|]. split.
  - intros i ft ft' Hi Hi'.
    change (map ?f ?l) with (f <$> l) in Hi, Hi'.
    rewrite list_lookup_fmap in Hi, Hi'.
    destruct (seq 0 25 !! i) as [n|] eqn:En; [|done].
    destruct (seq 0 25 !! S i) as [n'|] eqn:En'; [|done].
    apply lookup_seq in En as [-> _]. apply lookup_seq in En' as [-> _].
    simpl in Hi, Hi'. simplify_eq. lia.
  - apply Forall_forall. intros p Hp. apply list_elem_of_In in Hp.
    apply in_map_iff in Hp as (ft & <- & _). apply max0_nonneg.
Qed.

Lemma predict_data_forecast_points_witness :
  ∃ (slope intercept : Q) future_times predictions,
    linregress (seconds_from 0 [0; 60000000]) [400; 410]%Q
    = Ok (Fin slope, Fin intercept)
    ∧ predict_data 1000000000 "CO2" [0; 60000000] [400; 410]%Q
      = Ok (future_times, predictions)
    ∧ length future_times = 25%nat
    ∧ predictions
      = map (λ ft, let line := (slope * ((ft - 0) # 1000000) + intercept)%Q in
                   if Qle_bool line 0 then 0%Q else line)
            future_times.
Proof.
  destruct (predict_data_forecast_points 1000000000 "CO2"
              [0; 60000000] [400; 410]%Q eq_refl ltac:(discriminate))
    as (window_ts & window_vs & Hwin & Hrun).
  vm_compute in Hwin. injection Hwin as <- <-.
  destruct (Hrun 0 60000000) as
    (start & slope & intercept & future_times & predictions
     & Hstart & Hfit & Hpred & _ & _ & Hline & Hlen & _ & _ & _).
  - apply list_elem_of_here.
  - apply list_elem_of_further, list_elem_of_here.
  - discriminate.
  - simpl in Hstart. injection Hstart as <-.
    by exists slope, intercept, future_times, predictions.
Defined.

End ForecastClaims.

(** ** The series prepared by [show_current_data] *)

Section PreparedSeries.

Implicit Types (readings : list (Q * Z)) (data : gmap string Room).

(** The loop keeps, in order, the readings that are not in the future. *)
Lemma filter_future_history (current_time : Z) readings
    (timestamps : list Z) (values : list Q) :
  filter_future current_time (zip readings.*2 readings.*1) timestamps values
  = (timestamps ++ (filter (λ e, e.2 ≤ current_time) readings).*2,
     values ++ (filter (λ e, e.2 ≤ current_time) readings).*1).
Proof.
  revert timestamps values.
  induction readings as [|[val ts] readings IH]; intros timestamps values.
  - simpl. by rewrite !app_nil_r.
  - rewrite !fmap_cons. cbn [zip_with filter_future fst snd].
    rewrite filter_cons. cbn [snd]. case_bool_decide as Hts.
    + rewrite decide_True by done. rewrite IH, !fmap_cons, <- !app_assoc. done.
    + rewrite decide_False by done. apply IH.
Qed.

(** [show_current_data] up to the forecast, in terms of the past readings. *)
Lemma show_current_data_series_past data room_id sensor entry sensor_data
    (filter_time predict_time : Z) :
  data !! room_id = Some entry →
  sensors entry !! sensor = Some sensor_data →
  let past := filter (λ e, e.2 ≤ filter_time) (history sensor_data) in
  show_current_data_series data room_id sensor filter_time predict_time
  = if (1 <? length past)%nat then
      prediction ← predict_data predict_time sensor past.*2 past.*1;
      mret {| shown_timestamps := past.*2; shown_values := past.*1;
              forecast := Some prediction |}
    else
      mret {| shown_timestamps := past.*2; shown_values := past.*1;
              forecast := None |}.
Proof.
  intros Hroom Hsensor past. unfold show_current_data_series, getitem.
  rewrite Hroom. cbn [mbind result_bind]. rewrite Hsensor. cbn [mbind result_bind].
  rewrite filter_future_history. cbn [app]. fold past.
  by rewrite length_fmap.
Qed.

End PreparedSeries.

Section DegenerateFit.

Lemma foldr_constant (f : Q → Q → Q) (c : Q) (l : list Q) :
  f c c = c → (∀ a, a ∈ l → a = c) → foldr f c l = c.
Proof.
  intros Hf. induction l as [|a l IH]; intros Hall; [done|].
  simpl. rewrite IH by (intros b Hb; apply Hall; by right).
  rewrite (Hall a) by left. done.
Qed.

Lemma amax_constant (c : Q) (l : list Q) :
  l ≠ [] → (∀ a, a ∈ l → a = c) → amax l = c ∧ amin l = c.
Proof.
  intros Hne Hall. destruct l as [|a l]; [done|].
  assert (a = c) as -> by (apply Hall; apply list_elem_of_here).
  unfold amax, amin. cbn [hd].
  split; apply foldr_constant; try done; by destruct (Qlt_bool c c).
Qed.

(** The regression rejects two or more points that share one abscissa. *)
Lemma linregress_identical (c : Q) (x y : list Q) :
  (2 ≤ length x)%nat → (∀ a, a ∈ x → a = c) →
  linregress x y = Raise ValueError.
Proof.
  intros Hlen Hall. unfold linregress.
  destruct (bool_decide (x = []) || bool_decide (y = [])); [done|].
  destruct (negb (length x =? length y)%nat); [done|].
  destruct (amax_constant c x) as [-> ->];
    [intros ->; simpl in Hlen; lia|done|].
  rewrite Qeq_bool_refl, andb_true_r.
  by rewrite (proj2 (Nat.ltb_lt 1 (length x))) by lia.
Qed.

Lemma predict_data_identical_instants predict_time sensor timestamps values
    (window_ts : list Z) (window_vs : list Q) (start : Z) :
  select_window sensor timestamps values = Ok (window_ts, window_vs) →
  (2 ≤ length window_ts)%nat →
  (∀ t, t ∈ window_ts → t = start) →
  predict_data predict_time sensor timestamps values = Raise ValueError.
Proof.
  intros Hwin Hlen Hall.
  assert (head window_ts = Some start) as Hhead.
  { destruct window_ts as [|t rest]; [simpl in Hlen; lia|].
    simpl. f_equal. apply Hall. apply list_elem_of_here. }
  rewrite (predict_data_on_window _ _ _ _ _ _ _ Hwin Hhead).
  rewrite (linregress_identical (total_seconds (start - start))); [done| |].
  - unfold seconds_from. by rewrite length_map.
  - intros a Ha. unfold seconds_from in Ha. apply list_elem_of_In in Ha.
    apply in_map_iff in Ha as (t & <- & Ht). apply list_elem_of_In in Ht.
    by rewrite (Hall t Ht).
Qed.

End DegenerateFit.

Section SeriesClaims.

(** C9.  The two sequences that [show_current_data] hands to the forecaster
    (and later to the graphs) are the timestamps and the values of exactly
    the readings whose timestamp is not after "now", in their original
    order; a reading timestamped after "now" is in neither. *)
Theorem show_current_data_drops_future data room_id sensor entry sensor_data
    (filter_time predict_time : Z) :
  data !! room_id = Some entry →
  sensors entry !! sensor = Some sensor_data →
  let past := filter (λ e, e.2 ≤ filter_time) (history sensor_data) in
  filter_future filter_time
    (zip (history sensor_data).*2 (history sensor_data).*1) [] []
  = (past.*2, past.*1)
  ∧ show_current_data_series data room_id sensor filter_time predict_time
    = (if (1 <? length past)%nat then
         prediction ← predict_data predict_time sensor past.*2 past.*1;
         mret {| shown_timestamps := past.*2; shown_values := past.*1;
                 forecast := Some prediction |}
       else
         mret {| shown_timestamps := past.*2; shown_values := past.*1;
                 forecast := None |})
  ∧ (∀ e, e ∈ past ↔ e.2 ≤ filter_time ∧ e ∈ history sensor_data)
  ∧ past `sublist_of` history sensor_data.
Proof.
  intros Hroom Hsensor past. split; [apply filter_future_history|].
  split; [apply (show_current_data_series_past _ _ _ _ _ _ _ Hroom Hsensor)|].
  split; [intros e; unfold past; by rewrite list_elem_of_filter|apply sublist_filter].
Qed.

Lemma show_current_data_drops_future_witness :
  show_current_data_series
    (one_room "CO2" (PNum 410) 50 skewed_history)
    "multisensor_115" "CO2" 60000000 60000000
  = (prediction ← predict_data 60000000 "CO2" [0; 60000000] [400; 410]%Q;
     mret {| shown_timestamps := [0; 60000000]; shown_values := [400; 410]%Q;
             forecast := Some prediction |}).
Proof.
  exact (proj1 (proj2 (show_current_data_drops_future
           (one_room "CO2" (PNum 410) 50
              skewed_history)
           "multisensor_115" "CO2"
           (conference_space "CO2" (PNum 410) 50
              skewed_history)
           (reading (PNum 410) skewed_history)
           60000000 60000000 eq_refl eq_refl))).
Defined.

(** C6, as the code has it.  The caller skips the forecast only when fewer
    than 2 past readings exist.  When the selected window has 2 or more
    readings that all carry one timestamp, the regression raises ValueError
    and nothing catches it: [predict_data] and the preparation of that
    sensor's display both end with that error. *)
Theorem degenerate_fit_not_caught data room_id sensor entry sensor_data
    (filter_time predict_time : Z) :
  data !! room_id = Some entry →
  sensors entry !! sensor = Some sensor_data →
  let past := filter (λ e, e.2 ≤ filter_time) (history sensor_data) in
  ((length past < 2)%nat →
     show_current_data_series data room_id sensor filter_time predict_time
     = Ok {| shown_timestamps := past.*2; shown_values := past.*1;
             forecast := None |})
  ∧ (∀ window_ts window_vs start,
       (2 ≤ length past)%nat →
       select_window sensor past.*2 past.*1 = Ok (window_ts, window_vs) →
       (2 ≤ length window_ts)%nat →
       (∀ t, t ∈ window_ts → t = start) →
       predict_data predict_time sensor past.*2 past.*1 = Raise ValueError
       ∧ show_current_data_series data room_id sensor filter_time predict_time
         = Raise ValueError).
Proof.
  intros Hroom Hsensor past.
  rewrite (show_current_data_series_past _ _ _ _ _ _ _ Hroom Hsensor).
  fold past. split.
  - intros Hfew. by rewrite (proj2 (Nat.ltb_ge 1 (length past))) by lia.
  - intros window_ts window_vs start Hmany Hwin Hlen Hall.
    rewrite (proj2 (Nat.ltb_lt 1 (length past))) by lia.
    by rewrite (predict_data_identical_instants _ _ _ _ _ _ _ Hwin Hlen Hall).
Qed.

Lemma degenerate_fit_not_caught_witness :
  show_current_data_series
    (one_room "CO2" (PNum 410) 50 twin_history)
    "multisensor_115" "CO2" 0 0
  = Raise ValueError.
Proof.
  refine (proj2 (proj2 (degenerate_fit_not_caught
            (one_room "CO2" (PNum 410) 50 twin_history)
            "multisensor_115" "CO2"
            (conference_space "CO2" (PNum 410) 50 twin_history)
            (reading (PNum 410) twin_history)
            0 0 eq_refl eq_refl) [0; 0] [400; 410]%Q 0 _ _ _ _)).
  - simpl. lia.
  - reflexivity.
  - simpl. lia.
  - intros t Ht. repeat (apply elem_of_cons in Ht as [Ht|Ht]; [exact Ht|]).
    by apply elem_of_nil in Ht.
Defined.

(** C6 fails as stated: two past readings with one timestamp select a
    window without time variance, and the evaluation of the sensor ends
    with the regression's error instead of an empty forecast. *)
Lemma degenerate_window_not_skipped :
  select_window "CO2" [0; 0] [400; 410]%Q = Ok ([0; 0], [400; 410]%Q)
  ∧ predict_data 0 "CO2" [0; 0] [400; 410]%Q = Raise ValueError
  ∧ show_current_data_series
      (one_room "CO2" (PNum 410) 50 twin_history)
      "multisensor_115" "CO2" 0 0
    = Raise ValueError
  ∧ show_current_data_series
      (one_room "CO2" (PNum 410) 50 twin_history)
      "multisensor_115" "CO2" 0 0
    ≠ Ok {| shown_timestamps := [0; 0]; shown_values := [400; 410]%Q;
            forecast := None |}.
Proof. repeat split. discriminate. Qed.

End SeriesClaims.

(** * Further properties of the store, the live fetch and the page *)

Import PyStr StoreUpdate OccupancyUpdate Live LiveSpec FreshStore MoreExamples.
Import Gauge Graph Panel Info Training.

(** ** More on the window of [predict_data] *)

Section WindowShape.

Implicit Types (timestamps : list Z) (values : list Q) (sensor : string).

(** The three shapes a selected window can have. *)
Lemma select_window_cases sensor timestamps values
    (window_ts : list Z) (window_vs : list Q) :
  length timestamps = length values →
  select_window sensor timestamps values = Ok (window_ts, window_vs) →
  ∃ newest, last timestamps = Some newest
    ∧ ((window_ts, window_vs) = (timestamps, values)
       ∨ (window_ts, window_vs)
         = ((last_two_hours timestamps values newest).*1,
            (last_two_hours timestamps values newest).*2)
       ∨ ∃ k, (1 ≤ k ≤ length values - 2)%nat
              ∧ (window_ts, window_vs) = (drop k timestamps, drop k values)).
Proof.
  intros Hlen. unfold select_window.
  destruct (decide (timestamps = [])) as [->|Hne]; [done|].
  destruct (index_last_nonempty timestamps Hne) as (newest & Hnew & ->).
  cbn [mbind result_bind]. intros Hwin. exists newest. split; [done|].
  destruct (recent_indices_window timestamps values newest Hlen) as [Ets Evs].
  destruct (enumerate_indices_all timestamps values Hlen) as [Ets' Evs'].
  destruct (search_turning_point_spec values (length values - 2)
              (scan_start_in_range values)) as (found & Efound & Hfound).
  rewrite Efound in Hwin.
  assert (∀ recent_ts recent_vs,
            match found with
            | Some (S k) => mret (drop (S k) timestamps, drop (S k) values)
            | _ => mret (recent_ts, recent_vs)
            end = Ok (window_ts, window_vs) →
            (window_ts, window_vs) = (recent_ts, recent_vs)
            ∨ ∃ k, (1 ≤ k ≤ length values - 2)%nat
                   ∧ (window_ts, window_vs) = (drop k timestamps, drop k values))
    as Hpick.
  { intros recent_ts recent_vs Hres. destruct found as [[|k]|].
    - left. by injection Hres as <- <-.
    - right. exists (S k). destruct Hfound as (Hk & _). split; [lia|].
      by injection Hres as <- <-.
    - left. by injection Hres as <- <-. }
  destruct (bool_decide (sensor = "Light")).
  - rewrite Ets' in Hwin. cbn [mbind result_bind] in Hwin.
    rewrite Evs' in Hwin. cbn [mbind result_bind] in Hwin.
    destruct (bool_decide (sensor ∈ no_turning_point_kinds)).
    + left. by injection Hwin as <- <-.
    + destruct (Hpick _ _ Hwin) as [?|?]; auto.
  - rewrite Ets in Hwin. cbn [mbind result_bind] in Hwin.
    rewrite Evs in Hwin. cbn [mbind result_bind] in Hwin.
    destruct (bool_decide (sensor ∈ no_turning_point_kinds)).
    + right. left. by injection Hwin as <- <-.
    + destruct (Hpick _ _ Hwin) as [?|?]; auto.
Qed.

Lemma last_zip timestamps values newest :
  length timestamps = length values →
  last timestamps = Some newest →
  ∃ v, last values = Some v ∧ last (zip timestamps values) = Some (newest, v).
Proof.
  intros Hlen Hlast. apply last_Some in Hlast as [ts' ->].
  destruct (last values) as [v|] eqn:Ev.
  - exists v. split; [done|]. apply last_Some in Ev as [vs' ->].
    rewrite !length_app in Hlen. simpl in Hlen.
    rewrite zip_with_app by lia. apply last_snoc.
  - apply last_None in Ev as ->. rewrite length_app in Hlen. simpl in Hlen. lia.
Qed.

Lemma last_filter_last {A} (P : A → Prop) `{!∀ x, Decision (P x)} (l : list A) (x : A) :
  last l = Some x → P x → last (filter P l) = Some x.
Proof.
  intros Hlast HP. apply last_Some in Hlast as [l' ->].
  rewrite filter_app, filter_cons_True by done. apply last_snoc.
Qed.

Lemma last_drop_lt {A} (l : list A) (k : nat) :
  (k < length l)%nat → last (drop k l) = last l.
Proof.
  intros Hk. rewrite !last_lookup, lookup_drop, length_drop. f_equal. lia.
Qed.

(** On ascending first components, keeping the items from a threshold on is
    dropping a prefix. *)
Lemma filter_ascending_drop {B} (c : Z) (pairs : list (Z * B)) :
  StronglySorted Z.le pairs.*1 →
  ∃ j, filter (λ p, c ≤ p.1) pairs = drop j pairs.
Proof.
  induction pairs as [|[t b] pairs IH]; intros Hsorted.
  - by exists 0%nat.
  - rewrite fmap_cons in Hsorted. apply StronglySorted_inv in Hsorted as [Hrest Hall].
    destruct (decide (c ≤ t)) as [Hc|Hc].
    + exists 0%nat. rewrite drop_0.
      assert (Forall (λ p : Z * B, c ≤ p.1) pairs) as Hkeep.
      { rewrite Forall_fmap in Hall. eapply Forall_impl; [exact Hall|].
        intros p Hp. simpl in Hp. lia. }
      rewrite filter_cons_True by done. f_equal.
      clear -Hkeep. induction Hkeep as [|p l Hp _ IHl]; [done|].
      rewrite filter_cons_True by done. by f_equal.
    + destruct (IH Hrest) as [j Hj]. exists (S j).
      rewrite filter_cons_False by done. exact Hj.
Qed.

End WindowShape.

Section WindowInvariants.

Implicit Types (timestamps : list Z) (values : list Q) (sensor : string).

(** X1.  For Microphone Noise Level and Occupancy the turning-point search is
    skipped: the window is the last two hours, whatever extrema the values
    have. *)
Theorem select_window_without_search sensor timestamps values :
  sensor ∈ ["Microphone Noise Level"; "Occupancy"] →
  length timestamps = length values →
  timestamps ≠ [] →
  ∃ newest, last timestamps = Some newest
    ∧ select_window sensor timestamps values
      = Ok ((last_two_hours timestamps values newest).*1,
            (last_two_hours timestamps values newest).*2).
Proof.
  intros Hkind Hlen Hne.
  destruct (index_last_nonempty timestamps Hne) as (newest & Hnew & Enew).
  exists newest. split; [done|].
  destruct (recent_indices_window timestamps values newest Hlen) as [Ets Evs].
  unfold select_window. rewrite Enew. cbn [mbind result_bind].
  assert (sensor ≠ "Light") as Hlight.
  { intros ->. rewrite !elem_of_cons, elem_of_nil in Hkind.
    by destruct Hkind as [?|[?|[]]]. }
  rewrite (bool_decide_eq_false_2 _ Hlight), Ets. cbn [mbind result_bind].
  rewrite Evs. cbn [mbind result_bind].
  rewrite (bool_decide_eq_true_2 (sensor ∈ no_turning_point_kinds)); [done|].
  unfold no_turning_point_kinds. rewrite !elem_of_cons, elem_of_nil in Hkind.
  destruct Hkind as [->|[->|[]]];
    repeat first [apply list_elem_of_here | apply list_elem_of_further].
Qed.

Lemma select_window_without_search_witness :
  select_window "Occupancy" [0; 60000000; 120000000; 180000000] [1; 3; 2; 4]%Q
  = Ok ([0; 60000000; 120000000; 180000000], [1; 3; 2; 4]%Q).
Proof.
  destruct (select_window_without_search "Occupancy"
              [0; 60000000; 120000000; 180000000] [1; 3; 2; 4]%Q
              ltac:(apply list_elem_of_further, list_elem_of_here)
              eq_refl ltac:(discriminate)) as (newest & Hnew & Hwin).
  injection Hnew as <-. exact Hwin.
Defined.

(** X2.  Whatever the kind, the selected window is never empty, ends with the
    newest reading (its timestamp and its value), and keeps each timestamp
    paired with its own value, in the original order. *)
Theorem select_window_keeps_newest sensor timestamps values
    (window_ts : list Z) (window_vs : list Q) :
  length timestamps = length values →
  select_window sensor timestamps values = Ok (window_ts, window_vs) →
  window_ts ≠ []
  ∧ length window_ts = length window_vs
  ∧ last window_ts = last timestamps
  ∧ last window_vs = last values
  ∧ zip window_ts window_vs `sublist_of` zip timestamps values.
Proof.
  intros Hlen Hwin.
  destruct (select_window_cases _ _ _ _ _ Hlen Hwin) as (newest & Hnew & Hcases).
  destruct (last_zip _ _ _ Hlen Hnew) as (v & Hv & Hpair).
  assert (timestamps ≠ []) as Hne by (intros ->; discriminate).
  destruct Hcases as [[= -> ->]|[[= -> ->]|(k & Hk & [= -> ->])]].
  - by repeat split.
  - pose proof (last_filter_last (λ p : Z * Q, newest - timedelta 2 0 0 0 ≤ p.1)
                  (zip timestamps values) (newest, v) Hpair) as Hkept.
    fold (last_two_hours timestamps values newest) in Hkept.
    specialize (Hkept ltac:(simpl; unfold timedelta; lia)).
    rewrite !fmap_last, Hkept, Hnew, Hv, !length_fmap, zip_fst_snd.
    repeat split; [|apply sublist_filter].
    intros Hnil. apply (f_equal last) in Hnil.
    rewrite fmap_last, Hkept in Hnil. discriminate.
  - assert (k < length timestamps)%nat as Hkt by lia.
    rewrite !last_drop_lt by lia. rewrite !length_drop, <- zip_with_drop.
    repeat split; [|lia|apply sublist_drop].
    intros Hnil. apply (f_equal length) in Hnil. rewrite length_drop in Hnil.
    simpl in Hnil. lia.
Qed.

Lemma select_window_keeps_newest_witness :
  last [120000000; 180000000] = last [0; 60000000; 120000000; 180000000].
Proof.
  exact (proj1 (proj2 (proj2 (select_window_keeps_newest "CO2"
           [0; 60000000; 120000000; 180000000] [400; 410; 405; 407]%Q
           [120000000; 180000000] [405; 407]%Q eq_refl eq_refl)))).
Defined.

(** X3.  When the timestamps are in ascending order, the selected window is a
    suffix of the series: the readings from some index on, to the end. *)
Theorem select_window_is_suffix sensor timestamps values
    (window_ts : list Z) (window_vs : list Q) :
  length timestamps = length values →
  StronglySorted Z.le timestamps →
  select_window sensor timestamps values = Ok (window_ts, window_vs) →
  ∃ j, window_ts = drop j timestamps ∧ window_vs = drop j values.
Proof.
  intros Hlen Hsorted Hwin.
  destruct (select_window_cases _ _ _ _ _ Hlen Hwin) as (newest & Hnew & Hcases).
  destruct Hcases as [[= -> ->]|[[= -> ->]|(k & Hk & [= -> ->])]].
  - by exists 0%nat.
  - destruct (filter_ascending_drop (newest - timedelta 2 0 0 0)
                (zip timestamps values)) as [j Hj].
    { by rewrite fst_zip by lia. }
    exists j. unfold last_two_hours. rewrite Hj, !fmap_drop.
    by rewrite fst_zip, snd_zip by lia.
  - by exists k.
Qed.

Lemma select_window_is_suffix_witness :
  ∃ j, [10800000000] = drop j [0; 10800000000]
       ∧ [410%Q] = drop j [400%Q; 410%Q].
Proof.
  apply (select_window_is_suffix "CO2" [0; 10800000000] [400; 410]%Q
           [10800000000] [410%Q] eq_refl).
  - repeat constructor. lia.
  - reflexivity.
Defined.

End WindowInvariants.

(** ** More on the occupancy estimate *)

Section RoundFacts.





End RoundFacts.

Section OccupancyBounds.

Implicit Types (data : gmap string Room).






(** X6.  What the estimator raises before it computes anything: KeyError for an
    unknown room or a room without CO2 sensor, TypeError when the current
    CO2 value is still [None], ValueError when it is a word that [float]
    rejects: any string of ASCII letters other than inf, infinity and nan
    in any case (such as ['unknown'] or ['unavailable']). *)
Theorem calculate_occupancy_errors data room_id baseline emission elapsed :
  (data !! room_id = None →
     calculate_occupancy data room_id baseline emission elapsed = Raise KeyError)
  ∧ (∀ entry, data !! room_id = Some entry → sensors entry !! "CO2" = None →
     calculate_occupancy data room_id baseline emission elapsed = Raise KeyError)
  ∧ (∀ entry co2, data !! room_id = Some entry →
     sensors entry !! "CO2" = Some co2 → current_value co2 = PNone →
     calculate_occupancy data room_id baseline emission elapsed = Raise TypeError)
  ∧ (∀ entry co2 s, data !! room_id = Some entry →
     sensors entry !! "CO2" = Some co2 → current_value co2 = PStr s →
     float_rejects_word s = true →
     calculate_occupancy data room_id baseline emission elapsed = Raise ValueError).
Proof.
  unfold calculate_occupancy, getitem. repeat split.
  - by intros ->.
  - intros entry -> Hco2. cbn [mbind result_bind]. by rewrite Hco2.
  - intros entry co2 -> Hco2 Hval. cbn [mbind result_bind]. rewrite Hco2.
    cbn [mbind result_bind]. by rewrite Hval.
  - intros entry co2 s -> Hco2 Hval _. cbn [mbind result_bind]. rewrite Hco2.
    cbn [mbind result_bind]. by rewrite Hval.
Qed.

Lemma calculate_occupancy_errors_witness :
  calculate_occupancy (one_room "CO2" (PStr "unavailable") 100 []) "multisensor_115"
                      550 18 3600 = Raise ValueError.
Proof.
  exact (proj2 (proj2 (proj2 (calculate_occupancy_errors
           (one_room "CO2" (PStr "unavailable") 100 []) "multisensor_115"
           550 18 3600)))
           (conference_space "CO2" (PStr "unavailable") 100 [])
           (reading (PStr "unavailable") []) "unavailable"
           eq_refl eq_refl eq_refl eq_refl).
Defined.

End OccupancyBounds.

(** ** Strings *)

Section StringFacts.

Implicit Types (s t : string) (sep : Ascii.ascii).

Lemma split_nonempty sep s : split sep s ≠ [].
Proof.
  destruct s as [|a rest]; [done|]. simpl.
  destruct (decide (a = sep)); [done|]. by destruct (split sep rest).
Qed.

(** Joining the words of a split with the separator gives the string back. *)
Lemma join_split sep s : join (String sep EmptyString) (split sep s) = s.
Proof.
  unfold join. induction s as [|a rest IH]; [done|]. simpl.
  pose proof (split_nonempty sep rest) as Hne.
  destruct (decide (a = sep)) as [->|Hneq].
  - destruct (split sep rest) as [|w ws]; [done|].
    change (String.concat ?x (EmptyString :: w :: ws))
      with (String sep (String.concat x (w :: ws))).
    by rewrite IH.
  - destruct (split sep rest) as [|w ws]; [done|].
    destruct ws as [|w' ws].
    + simpl in *. by rewrite IH.
    + change (String.concat ?x (String a w :: w' :: ws))
        with (String a (String.concat x (w :: w' :: ws))).
      by rewrite IH.
Qed.

(** ["_" not in s], read on the characters. *)
Lemma contains_char_false sep a s :
  contains (String sep EmptyString) (String a s) = false →
  a ≠ sep ∧ contains (String sep EmptyString) s = false.
Proof.
  simpl. intros H. apply orb_false_iff in H as [Hhead Htail].
  split; [|done]. intros ->.
  destruct (Ascii.ascii_dec sep sep) as [_|Hne]; [|done].
  destruct s; discriminate Hhead.
Qed.

(** A string without separator is the first word of what follows it. *)
Lemma split_first_word sep s t :
  contains (String sep EmptyString) s = false →
  split sep (s +:+ String sep t) = s :: split sep t.
Proof.
  induction s as [|a rest IH]; intros Hfree.
  - simpl. by rewrite decide_True.
  - apply contains_char_false in Hfree as [Hne Hrest].
    simpl. rewrite decide_False by done. by rewrite (IH Hrest).
Qed.

Lemma append_assoc (s1 s2 s3 : string) : (s1 +:+ s2) +:+ s3 = s1 +:+ s2 +:+ s3.
Proof.
  induction s1 as [|a s1 IH]; [done|].
  change (String a ((s1 +:+ s2) +:+ s3) = String a (s1 +:+ s2 +:+ s3)).
  by rewrite IH.
Qed.

End StringFacts.

(** ** Live values *)

Section LiveDecoding.

(** The words of a multisensor entity id. *)
Lemma split_entity_id (n chip rest : string) :
  contains "_" n = false →
  contains "_" chip = false →
  split "_" ("sensor.multisensor_" +:+ n +:+ "_" +:+ chip +:+ "_" +:+ rest)
  = "sensor.multisensor" :: n :: chip :: split "_" rest.
Proof.
  intros Hn Hchip.
  change ("sensor.multisensor_" +:+ n +:+ "_" +:+ chip +:+ "_" +:+ rest)
    with ("sensor.multisensor" +:+ String "_" (n +:+ String "_" (chip +:+ String "_" rest))).
  rewrite (split_first_word "_" "sensor.multisensor") by reflexivity.
  rewrite (split_first_word "_" n) by done.
  by rewrite (split_first_word "_" chip) by done.
Qed.

(** X7.  The entity id of a multisensor reading decodes to the room id and to
    the sensor type without its first word (the chip name): for a room
    number and a chip name without underscore,
    [sensor.multisensor_<n>_<chip>_<rest>] gives
    [multisensor_<n>] and [_<rest>]. *)
Theorem decode_entity_multisensor (n chip rest : string) :
  contains "_" n = false →
  contains "_" chip = false →
  decode_entity ("sensor.multisensor_" +:+ n +:+ "_" +:+ chip +:+ "_" +:+ rest)
  = ("multisensor_" +:+ n, "_" +:+ rest).
Proof.
  intros Hn Hchip. unfold decode_entity.
  rewrite (split_entity_id n chip rest Hn Hchip).
  cbn [head default drop take app].
  rewrite drop_0, (join_split "_" rest). reflexivity.
Qed.

Lemma decode_entity_multisensor_witness :
  decode_entity "sensor.multisensor_110_microphone_noise_level"
  = ("multisensor_110", "_noise_level").
Proof.
  exact (decode_entity_multisensor "110" "microphone" "noise_level" eq_refl eq_refl).
Defined.

End LiveDecoding.

Section LiveRouting.

Implicit Types (data : gmap string Room) (order : list string).

(** With the ids of a table, the first match is found on the table. *)
Lemma first_matching_table (ids : gmap string string) target
    (sensors : gmap string Sensor) order :
  (∀ kind, sensor_id <$> sensors !! kind = ids !! kind) →
  first_matching target sensors order
  = match find (λ kind, match ids !! kind with
                        | Some id => contains target id
                        | None => false
                        end) order with
    | Some kind => (λ details, (kind, details)) <$> sensors !! kind
    | None => None
    end.
Proof.
  intros Hids. induction order as [|kind order IH]; [done|].
  simpl. specialize (Hids kind).
  destruct (sensors !! kind) as [details|] eqn:E; simpl in Hids; rewrite <- Hids.
  - destruct (contains target (sensor_id details)); [by rewrite E|done].
  - done.
Qed.

Lemma in_live_routing suffix target :
  (suffix, target) ∈ live_routing →
  ∃ chip rest, suffix = "_" +:+ chip +:+ "_" +:+ rest
    ∧ contains "_" chip = false
    ∧ find (λ kind, match (fst <$> dict multisensor_sensors) !! kind with
                    | Some id => contains ("_" +:+ rest) id
                    | None => false
                    end) sensor_order = target.
Proof.
  unfold live_routing. rewrite !elem_of_cons, elem_of_nil.
  intros [H|[H|[H|[H|[H|[H|[H|[H|[H|[H|[H|[H|[]]]]]]]]]]]]];
    injection H as -> ->.
  - by exists "ld2410", "detection_distance".
  - by exists "tof", "distance".
  - by exists "bme680", "humidity".
  - by exists "bme680", "temperature".
  - by exists "scd30", "co2".
  - by exists "bme680", "iaq".
  - by exists "ltr390", "uv_index".
  - by exists "microphone", "voltage".
  - by exists "microphone", "noise_level".
  - by exists "bme680", "pressure".
  - by exists "ltr390", "light".
  - by exists "bme680", "gas_resistance".
Qed.

(** X8.  Where a live state ends up.  In a room [multisensor_<n>] whose sensors
    carry the ids set by [create_sensor_dict], an entity
    [sensor.multisensor_<n><suffix>] with one of the twelve Home Assistant
    suffixes sets the current value of exactly the kind that suffix stands
    for; the suffixes of Detection Distance, TOF Distance and Microphone
    Voltage match no sensor and leave the store as it is. *)
Theorem apply_entity_routing data (n : string) entry suffix target (state : pyvalue) :
  contains "_" n = false →
  data !! ("multisensor_" +:+ n) = Some entry →
  sensor_id <$> sensors entry = fst <$> dict multisensor_sensors →
  (suffix, target) ∈ live_routing →
  match target with
  | Some kind =>
      ∃ details, sensors entry !! kind = Some details
        ∧ apply_entity sensor_order data
            ("sensor.multisensor_" +:+ n +:+ suffix, state)
          = <["multisensor_" +:+ n :=
                set_sensor kind (set_current_value state details) entry]> data
  | None =>
      apply_entity sensor_order data
        ("sensor.multisensor_" +:+ n +:+ suffix, state) = data
  end.
Proof.
  intros Hn Hroom Hsame Hsuffix.
  assert (∀ kind, sensor_id <$> sensors entry !! kind
                  = (fst <$> dict multisensor_sensors) !! kind) as Hids.
  { intros kind. by rewrite <- Hsame, lookup_fmap. }
  destruct (in_live_routing _ _ Hsuffix) as (chip & rest & -> & Hchip & Hfind).
  unfold apply_entity. cbn [fst snd].
  assert (decode_entity ("sensor.multisensor_" +:+ n +:+ "_" +:+ chip +:+ "_" +:+ rest)
          = ("multisensor_" +:+ n, "_" +:+ rest)) as ->.
  { unfold decode_entity. rewrite (split_entity_id n chip rest Hn Hchip).
    cbn [head default drop take app].
    by rewrite drop_0, (join_split "_" rest). }
  unfold update_sensor_value. rewrite Hroom.
  rewrite (first_matching_table _ _ _ _ Hids), Hfind.
  destruct target as [kind|]; [|done].
  destruct (sensors entry !! kind) as [details|] eqn:E.
  - exists details. by split.
  - exfalso. apply find_some in Hfind as [_ Hid].
    specialize (Hids kind). rewrite E in Hids. simpl in Hids.
    by rewrite <- Hids in Hid.
Qed.

Lemma apply_entity_routing_witness :
  ∃ details,
    fresh_sensors !! "CO2" = Some details
    ∧ apply_entity sensor_order
        {[ "multisensor_109" := {| room := "Focus-Space"; sensors := fresh_sensors;
                                   volume := 162 |} ]}
        ("sensor.multisensor_109_scd30_co2", PNum 800)
      = <["multisensor_109" :=
            set_sensor "CO2" (set_current_value (PNum 800) details)
              {| room := "Focus-Space"; sensors := fresh_sensors; volume := 162 |}]>
          {[ "multisensor_109" := {| room := "Focus-Space"; sensors := fresh_sensors;
                                     volume := 162 |} ]}.
Proof.
  refine (apply_entity_routing
            {[ "multisensor_109" := {| room := "Focus-Space"; sensors := fresh_sensors;
                                       volume := 162 |} ]}
            "109" {| room := "Focus-Space"; sensors := fresh_sensors; volume := 162 |}
            "_scd30_co2" (Some "CO2") (PNum 800) eq_refl eq_refl _ _).
  - reflexivity.
  - unfold live_routing. do 4 apply list_elem_of_further. apply list_elem_of_here.
Defined.

End LiveRouting.

Section StoreFrames.

Implicit Types (data : gmap string Room) (P : string → Prop).

Lemma same_sensor_refl (s : Sensor) : same_sensor_but_value s s.
Proof. by repeat split. Qed.

Lemma same_room_refl P (r : Room) : same_room_but_values P r r.
Proof.
  repeat split. intros kind. destruct (sensors r !! kind); [|done].
  split; [apply same_sensor_refl|done].
Qed.

Lemma same_store_refl P data : same_store_but_values P data data.
Proof.
  intros room_id. destruct (data !! room_id); [apply same_room_refl|done].
Qed.

Lemma same_room_trans P (r1 r2 r3 : Room) :
  same_room_but_values P r1 r2 → same_room_but_values P r2 r3 →
  same_room_but_values P r1 r3.
Proof.
  intros (Hn12 & Hv12 & Hs12) (Hn23 & Hv23 & Hs23).
  split; [congruence|]. split; [congruence|]. intros kind.
  specialize (Hs12 kind). specialize (Hs23 kind).
  destruct (sensors r1 !! kind) as [s1|], (sensors r2 !! kind) as [s2|],
    (sensors r3 !! kind) as [s3|]; try done.
  destruct Hs12 as ((? & ? & ? & ?) & Hk12), Hs23 as ((? & ? & ? & ?) & Hk23).
  split; [repeat split; congruence|].
  intros HP. rewrite (Hk23 HP). by apply Hk12.
Qed.

Lemma same_store_trans P data1 data2 data3 :
  same_store_but_values P data1 data2 → same_store_but_values P data2 data3 →
  same_store_but_values P data1 data3.
Proof.
  intros H12 H23 room_id. specialize (H12 room_id). specialize (H23 room_id).
  destruct (data1 !! room_id), (data2 !! room_id), (data3 !! room_id); try done.
  by eapply same_room_trans.
Qed.

(** Writing a current value into an existing sensor of an existing room. *)
Lemma set_value_frame P data room_id entry kind details (new_value : pyvalue) :
  data !! room_id = Some entry →
  sensors entry !! kind = Some details →
  P kind →
  same_store_but_values P data
    (<[room_id := set_sensor kind (set_current_value new_value details) entry]> data).
Proof.
  intros Hroom Hkind HP other.
  destruct (decide (room_id = other)) as [<-|Hne].
  - rewrite lookup_insert_eq, Hroom. repeat split. intros k. simpl.
    destruct (decide (kind = k)) as [<-|Hk].
    + rewrite lookup_insert_eq, Hkind. by repeat split.
    + rewrite lookup_insert_ne by done.
      destruct (sensors entry !! k); [|done]. split; [apply same_sensor_refl|done].
  - rewrite lookup_insert_ne by done. apply same_store_refl.
Qed.

Lemma first_matching_Some target (sensors : gmap string Sensor) order kind details :
  first_matching target sensors order = Some (kind, details) →
  sensors !! kind = Some details ∧ contains target (sensor_id details) = true.
Proof.
  induction order as [|k order IH]; [done|]. simpl.
  destruct (sensors !! k) as [d|] eqn:E; [|done].
  destruct (contains target (sensor_id d)) eqn:C; [|done].
  by intros [= <- <-].
Qed.

Lemma update_sensor_value_frame order data target_sensor_id target_id new_value :
  same_store_but_values (λ _, True) data
    (update_sensor_value order data target_sensor_id target_id new_value).
Proof.
  unfold update_sensor_value.
  destruct (data !! target_sensor_id) as [entry|] eqn:Hroom; [|apply same_store_refl].
  destruct (first_matching _ _ _) as [[kind details]|] eqn:Hmatch;
    [|apply same_store_refl].
  apply first_matching_Some in Hmatch as [Hkind _].
  by eapply set_value_frame.
Qed.

End StoreFrames.

Section LiveFrame.

(** X9.  The live fetch only ever overwrites current values: it adds and removes
    no room and no sensor, and leaves every room name, volume, unit, id and
    history as it was; when the response is not ok it changes nothing. *)
Theorem fetch_live_data_frame order (ok : bool) (all_states : list (string * pyvalue))
    (data : gmap string Room) :
  same_store_but_values (λ _, True) data (fetch_live_data order ok all_states data)
  ∧ (ok = false → fetch_live_data order ok all_states data = data).
Proof.
  split; [|by intros ->]. unfold fetch_live_data.
  destruct ok; [|apply same_store_refl].
  generalize (filter (λ entity : string * pyvalue,
                        is_multisensor_entity entity.1 = true) all_states).
  intros entities. revert data.
  induction entities as [|entity entities IH]; intros data; [apply same_store_refl|].
  simpl. eapply same_store_trans; [|apply IH].
  unfold apply_entity. destruct (decode_entity entity.1).
  apply update_sensor_value_frame.
Qed.

Lemma fetch_live_data_frame_witness :
  fetch_live_data sensor_order false [("sensor.multisensor_115_scd30_co2", PNum 800)]
    (one_room "CO2" (PNum 410) 50 [])
  = one_room "CO2" (PNum 410) 50 [].
Proof.
  exact (proj2 (fetch_live_data_frame sensor_order false
                  [("sensor.multisensor_115_scd30_co2", PNum 800)]
                  (one_room "CO2" (PNum 410) 50 [])) eq_refl).
Defined.

End LiveFrame.

(** ** Occupancy write-back *)

Section OccupancyWriteBack.

Implicit Types (data : gmap string Room) (room_ids : list string).

(** The estimate reads nothing that the write-back changes. *)
Lemma calculate_occupancy_frame data data' room_id baseline emission elapsed :
  same_store_but_values occupancy_only data data' →
  calculate_occupancy data' room_id baseline emission elapsed
  = calculate_occupancy data room_id baseline emission elapsed.
Proof.
  intros Hsame. specialize (Hsame room_id). unfold calculate_occupancy, getitem.
  destruct (data !! room_id) as [r|], (data' !! room_id) as [r'|]; try done.
  destruct Hsame as (_ & Hvol & Hkinds). specialize (Hkinds "CO2").
  cbn [mbind result_bind].
  destruct (sensors r !! "CO2") as [s|], (sensors r' !! "CO2") as [s'|]; try done.
  destruct Hkinds as [_ Heq]. rewrite Heq by discriminate. by rewrite Hvol.
Qed.

Lemma update_occupancy_frame_from room_ids data0 data :
  same_store_but_values occupancy_only data0 data →
  same_store_but_values occupancy_only data0 (update_occupancy room_ids data).1.
Proof.
  revert data. induction room_ids as [|room_id rest IH]; intros data Hsame; [done|].
  simpl. destruct (data !! room_id) as [info|] eqn:Hroom; [|by apply IH].
  destruct (sensors info !! "Occupancy") as [occupancy|] eqn:Hocc; [|by apply IH].
  destruct (calculate_occupancy data room_id _ _ _) as [people|e]; [|done].
  apply IH. eapply same_store_trans; [exact Hsame|]. by eapply set_value_frame.
Qed.

(** X10.  The write-back touches nothing but the current value of the Occupancy
    sensors: rooms, names, volumes, sensor kinds, units, ids, histories and
    all other current values are as before, also when it ends with an
    exception. *)
Theorem update_occupancy_frame room_ids data :
  same_store_but_values (λ kind, kind = "Occupancy") data
    (update_occupancy room_ids data).1.
Proof. apply update_occupancy_frame_from, same_store_refl. Qed.

(** Every visited room with an Occupancy sensor ends with its estimate. *)
Lemma update_occupancy_run room_ids data0 data :
  same_store_but_values occupancy_only data0 data →
  (∀ room_id r, room_id ∈ room_ids → data0 !! room_id = Some r →
     is_Some (sensors r !! "Occupancy") →
     ∃ n, calculate_occupancy data0 room_id 550 18 3600 = Ok n) →
  (update_occupancy room_ids data).2 = None
  ∧ (∀ room_id r n, room_id ∈ room_ids → data0 !! room_id = Some r →
       is_Some (sensors r !! "Occupancy") →
       calculate_occupancy data0 room_id 550 18 3600 = Ok n →
       ∃ r' s', (update_occupancy room_ids data).1 !! room_id = Some r'
                ∧ sensors r' !! "Occupancy" = Some s'
                ∧ current_value s' = PNum (inject_Z n))
  ∧ (∀ room_id, room_id ∉ room_ids →
       (update_occupancy room_ids data).1 !! room_id = data !! room_id).
Proof.
  revert data. induction room_ids as [|room_id rest IH]; intros data Hsame Hpre.
  { split; [done|]. split; [|done]. intros ? ? ? Hin. by apply elem_of_nil in Hin. }
  assert (∀ id r, id ∈ rest → data0 !! id = Some r →
            is_Some (sensors r !! "Occupancy") →
            ∃ n, calculate_occupancy data0 id 550 18 3600 = Ok n) as Hrest.
  { intros id r Hin. apply Hpre. by right. }
  pose proof (Hsame room_id) as Hroom0.
  simpl. destruct (data !! room_id) as [info|] eqn:Hroom.
  2:{ destruct (IH data Hsame Hrest) as (Hnone & Hvals & Hother).
      split; [done|]. split.
      - intros id r n Hin Hid. apply elem_of_cons in Hin as [->|Hin]; [|by eauto].
        by rewrite Hid in Hroom0.
      - intros id Hout. apply Hother. intros Hin. apply Hout. by right. }
  destruct (data0 !! room_id) as [r0|] eqn:Hr0; [|done].
  destruct Hroom0 as (_ & _ & Hkinds). specialize (Hkinds "Occupancy").
  destruct (sensors info !! "Occupancy") as [occupancy|] eqn:Hocc.
  2:{ destruct (IH data Hsame Hrest) as (Hnone & Hvals & Hother).
      split; [done|]. split.
      - intros id r n Hin Hid Hsome.
        apply elem_of_cons in Hin as [->|Hin]; [|by eauto].
        rewrite Hr0 in Hid. injection Hid as <-.
        destruct Hsome as [s0 Hs0]. by rewrite Hs0 in Hkinds.
      - intros id Hout. apply Hother. intros Hin. apply Hout. by right. }
  destruct (sensors r0 !! "Occupancy") as [s0|] eqn:Hs0; [|done].
  destruct (Hpre room_id r0) as [people Hpeople]; [by left|done|by eexists|].
  rewrite (calculate_occupancy_frame _ _ _ _ _ _ Hsame), Hpeople.
  set (data1 := <[room_id := _]> data).
  assert (same_store_but_values occupancy_only data0 data1) as Hsame1.
  { eapply same_store_trans; [exact Hsame|]. by eapply set_value_frame. }
  destruct (IH data1 Hsame1 Hrest) as (Hnone & Hvals & Hother).
  split; [done|]. split.
  - intros id r n Hin Hid Hsome Hn.
    destruct (decide (id ∈ rest)) as [Hlater|Hlast]; [by eauto|].
    apply elem_of_cons in Hin as [->|Hin]; [|done].
    rewrite (Hother _ Hlast). unfold data1. rewrite lookup_insert_eq.
    eexists _, _. split; [done|]. simpl. rewrite lookup_insert_eq.
    split; [done|]. simpl. congruence.
  - intros id Hout. rewrite Hother.
    + unfold data1. rewrite lookup_insert_ne; [done|].
      intros ->. apply Hout. by left.
    + intros Hin. apply Hout. by right.
Qed.

Lemma update_occupancy_success room_ids data :
  (∀ room_id r, room_id ∈ room_ids → data !! room_id = Some r →
     is_Some (sensors r !! "Occupancy") →
     ∃ n, calculate_occupancy data room_id 550 18 3600 = Ok n) →
  (update_occupancy room_ids data).2 = None
  ∧ ∀ room_id r n, room_id ∈ room_ids → data !! room_id = Some r →
      is_Some (sensors r !! "Occupancy") →
      calculate_occupancy data room_id 550 18 3600 = Ok n →
      ∃ r' s', (update_occupancy room_ids data).1 !! room_id = Some r'
               ∧ sensors r' !! "Occupancy" = Some s'
               ∧ current_value s' = PNum (inject_Z n).
Proof.
  intros Hpre.
  destruct (update_occupancy_run room_ids data data (same_store_refl _ _) Hpre)
    as (Hnone & Hvals & _).
  by split.
Qed.

(** X11.  When the estimate succeeds for every listed room that has an Occupancy
    sensor, the write-back raises nothing and each such room's Occupancy
    sensor ends up holding its estimate, computed from the store as it was
    before. *)
Theorem update_occupancy_writes_estimates room_ids data :
  (∀ room_id r, room_id ∈ room_ids → data !! room_id = Some r →
     is_Some (sensors r !! "Occupancy") →
     ∃ n, calculate_occupancy data room_id 550 18 3600 = Ok n) →
  (update_occupancy room_ids data).2 = None
  ∧ ∀ room_id r n, room_id ∈ room_ids → data !! room_id = Some r →
      is_Some (sensors r !! "Occupancy") →
      calculate_occupancy data room_id 550 18 3600 = Ok n →
      ∃ r' s', (update_occupancy room_ids data).1 !! room_id = Some r'
               ∧ sensors r' !! "Occupancy" = Some s'
               ∧ current_value s' = PNum (inject_Z n).
Proof. apply update_occupancy_success. Qed.

Lemma update_occupancy_writes_estimates_witness :
  (update_occupancy ["multisensor_109"] (metered_store (PNum 1000) 162)).2 = None
  ∧ ∃ r' s',
      (update_occupancy ["multisensor_109"] (metered_store (PNum 1000) 162)).1
        !! "multisensor_109" = Some r'
      ∧ sensors r' !! "Occupancy" = Some s'
      ∧ current_value s' = PNum (inject_Z 4).
Proof.
  destruct (update_occupancy_writes_estimates ["multisensor_109"]
              (metered_store (PNum 1000) 162)) as [Hnone Hvals].
  - intros room_id r Hin _ _. apply list_elem_of_singleton in Hin as ->.
    eexists. reflexivity.
  - split; [exact Hnone|].
    eapply (Hvals "multisensor_109");
      [apply list_elem_of_here|reflexivity|by eexists|reflexivity].
Defined.





(** Writing the value a sensor already holds changes nothing. *)
Lemma set_same_value data room_id entry kind details :
  data !! room_id = Some entry →
  sensors entry !! kind = Some details →
  <[room_id := set_sensor kind (set_current_value (current_value details) details)
                 entry]> data = data.
Proof.
  intros Hroom Hkind. apply insert_id. rewrite Hroom. f_equal.
  destruct entry as [name kinds vol]. unfold set_sensor. simpl in *. f_equal.
  symmetry. apply insert_id. rewrite Hkind. f_equal. by destruct details.
Qed.

Lemma update_occupancy_settled room_ids data :
  (∀ room_id r s, room_id ∈ room_ids → data !! room_id = Some r →
     sensors r !! "Occupancy" = Some s →
     ∃ n, calculate_occupancy data room_id 550 18 3600 = Ok n
          ∧ current_value s = PNum (inject_Z n)) →
  update_occupancy room_ids data = (data, None).
Proof.
  induction room_ids as [|room_id rest IH]; intros Hset; [done|].
  assert (update_occupancy rest data = (data, None)) as Hrest.
  { apply IH. intros id r s Hin. apply Hset. by right. }
  simpl. destruct (data !! room_id) as [info|] eqn:Hroom; [|done].
  destruct (sensors info !! "Occupancy") as [occupancy|] eqn:Hocc; [|done].
  destruct (Hset room_id info occupancy) as (n & -> & Hn); [by left|done|done|].
  rewrite <- Hn. by rewrite (set_same_value _ _ _ _ _ Hroom Hocc).
Qed.

(** X13.  A second write-back right after a successful one changes nothing: the
    estimates depend only on CO2 values and volumes, which the first one
    left alone. *)
Theorem update_occupancy_idempotent room_ids data :
  (∀ room_id r, room_id ∈ room_ids → data !! room_id = Some r →
     is_Some (sensors r !! "Occupancy") →
     ∃ n, calculate_occupancy data room_id 550 18 3600 = Ok n) →
  update_occupancy room_ids (update_occupancy room_ids data).1
  = ((update_occupancy room_ids data).1, None).
Proof.
  intros Hpre.
  pose proof (update_occupancy_frame_from room_ids data data (same_store_refl _ _))
    as Hframe.
  destruct (update_occupancy_success room_ids data Hpre) as [_ Hvals].
  apply update_occupancy_settled. intros room_id r' s' Hin Hr' Hs'.
  pose proof (Hframe room_id) as Hr. rewrite Hr' in Hr.
  destruct (data !! room_id) as [r|] eqn:Hroom; [|done].
  destruct Hr as (_ & _ & Hkinds). specialize (Hkinds "Occupancy").
  rewrite Hs' in Hkinds.
  destruct (sensors r !! "Occupancy") as [s|] eqn:Hs; [|done].
  destruct (Hpre room_id r Hin Hroom) as [n Hn]; [by eexists|].
  exists n. rewrite (calculate_occupancy_frame _ _ _ _ _ _ Hframe). split; [done|].
  destruct (Hvals room_id r n Hin Hroom) as (r'' & s'' & Hr'' & Hs'' & Hval);
    [by eexists|done|].
  congruence.
Qed.

Lemma update_occupancy_idempotent_witness :
  update_occupancy ["multisensor_109"]
    (update_occupancy ["multisensor_109"] (metered_store (PNum 1000) 162)).1
  = ((update_occupancy ["multisensor_109"] (metered_store (PNum 1000) 162)).1, None).
Proof.
  apply (update_occupancy_idempotent ["multisensor_109"]
           (metered_store (PNum 1000) 162)).
  intros room_id r Hin _ _. apply list_elem_of_singleton in Hin as ->.
  eexists. reflexivity.
Defined.

End OccupancyWriteBack.

(** ** The initial store *)

Section DictFacts.

Context {A : Type}.
Implicit Types (items : list (string * A)).

Lemma dict_snoc items (item : string * A) :
  dict (items ++ [item]) = <[item.1 := item.2]> (dict items).
Proof. unfold dict. by rewrite foldl_app. Qed.

Lemma dict_lookup_elem_of items k v : dict items !! k = Some v → (k, v) ∈ items.
Proof.
  induction items as [|[k' v'] items IH] using rev_ind; [done|].
  rewrite dict_snoc. cbn [fst snd]. intros Hlook. apply elem_of_app.
  destruct (decide (k' = k)) as [->|Hne].
  - rewrite lookup_insert_eq in Hlook. injection Hlook as ->.
    right. apply list_elem_of_here.
  - rewrite lookup_insert_ne in Hlook by done. left. by apply IH.
Qed.

Lemma dict_lookup_is_Some items k : is_Some (dict items !! k) ↔ k ∈ items.*1.
Proof.
  induction items as [|[k' v'] items IH] using rev_ind.
  - simpl. split; [by intros [? ?]|by intros ?%elem_of_nil].
  - rewrite dict_snoc, fmap_app, elem_of_app. cbn [fst snd fmap list_fmap].
    rewrite list_elem_of_singleton, <- IH.
    destruct (decide (k' = k)) as [->|Hne].
    + rewrite lookup_insert_eq. split; [by right|by eexists].
    + rewrite lookup_insert_ne by done. split; [by left|]. by intros [?|?].
Qed.

End DictFacts.

Section FreshStoreFacts.

(** The room built for one item of [sensor_room_mapping]. *)
Lemma create_sensor_dict_rooms :
  create_sensor_dict
  = Ok (dict ((λ item : string * string,
                 (item.1, {| room := item.2; sensors := fresh_sensors;
                             volume := default 0%Q (room_volume !! item.2) |}))
              <$> sensor_room_mapping)).
Proof. reflexivity. Qed.

(** X14.  [create_sensor_dict] raises nothing.  The store it returns has exactly
    the thirteen rooms of [sensor_room_mapping], each under its name and
    with the volume [room_volume] gives for that name; every room has
    exactly the ten kinds that the comfort table of [check_for_warnings]
    knows, each with the id and unit of [multisensor_sensors], without a
    current value and with an empty history. *)
Theorem create_sensor_dict_shape :
  ∃ data, create_sensor_dict = Ok data
    ∧ (∀ room_id, is_Some (data !! room_id) ↔ room_id ∈ room_order)
    ∧ (∀ room_id r, data !! room_id = Some r →
         (room_id, room r) ∈ sensor_room_mapping
         ∧ room_volume !! room r = Some (volume r)
         ∧ sensors r = fresh_sensors)
    ∧ (∀ kind, is_Some (fresh_sensors !! kind) ↔ kind ∈ comfort_kinds)
    ∧ (∀ kind s, fresh_sensors !! kind = Some s →
         (kind, (sensor_id s, sensor_unit s)) ∈ multisensor_sensors
         ∧ current_value s = PNone ∧ history s = []).
Proof.
  eexists. split; [exact create_sensor_dict_rooms|]. split; [|split; [|split]].
  - intros room_id. rewrite dict_lookup_is_Some, <- list_fmap_compose. done.
  - intros room_id r Hr. apply dict_lookup_elem_of in Hr.
    apply list_elem_of_fmap in Hr as ([id name] & [= -> ->] & Hin).
    cbn [room volume sensors fst snd]. split; [done|]. split; [|done].
    unfold sensor_room_mapping in Hin. rewrite !elem_of_cons, elem_of_nil in Hin.
    repeat (destruct Hin as [[= _ ->]|Hin]; [reflexivity|]). done.
  - intros kind. unfold fresh_sensors.
    rewrite dict_lookup_is_Some, <- list_fmap_compose.
    unfold comfort_kinds, multisensor_sensors. cbn [fmap list_fmap compose fst].
    rewrite !elem_of_cons, !elem_of_nil. tauto.
  - intros kind s Hs. apply dict_lookup_elem_of in Hs.
    apply list_elem_of_fmap in Hs as ([k [id unit]] & [= -> ->] & Hin).
    by cbn [sensor_id sensor_unit current_value history fst snd].
Qed.

End FreshStoreFacts.

(** ** The gauge *)

Section GaugeFacts.

Ltac range_cases H :=
  apply dict_lookup_elem_of in H;
  rewrite !elem_of_cons, elem_of_nil in H;
  repeat (destruct H as [H|H]; [injection H as -> -> ->|]); [..|done].

Ltac by_computation := vm_compute; first [reflexivity | discriminate | done].

(** X15.  For every kind with a good range the gauge is well formed: computing
    it raises nothing (in particular the scale is not empty, so no division
    by zero); the scale starts at 0 or above, both ends are multiples of
    ten and enclose the good range; and the five band ends never decrease,
    the green band lies inside the scale and the last band ends at 1.  A
    kind without good range raises KeyError. *)
Theorem show_sensor_gauge_well_formed (sensor : string) :
  match sensor_ranges !! sensor with
  | Some (lo, hi) =>
      ∃ scale, show_sensor_gauge sensor = Ok scale
        ∧ 0 ≤ scale_min scale ≤ lo ∧ hi ≤ scale_max scale
        ∧ scale_min scale < scale_max scale
        ∧ scale_min scale `mod` 10 = 0 ∧ scale_max scale `mod` 10 = 0
        ∧ ∃ red orange green orange' red',
            band_ends scale = [red; orange; green; orange'; red']
            ∧ (red <= orange)%Q ∧ (0 <= orange)%Q ∧ (orange <= green)%Q
            ∧ (green <= orange')%Q ∧ (orange' <= red')%Q ∧ (red' == 1)%Q
  | None => show_sensor_gauge sensor = Raise KeyError
  end.
Proof.
  destruct (sensor_ranges !! sensor) as [[lo hi]|] eqn:Hrange.
  - range_cases Hrange;
      (eexists; split; [by_computation|];
       repeat (split; [by_computation|]);
       eexists _, _, _, _, _; split; [by_computation|];
       repeat (split; [by_computation|]); by_computation).
  - unfold show_sensor_gauge, getitem. by rewrite Hrange.
Qed.

(** The good ranges of the gauge are the bounds of the comfort table: the
    upper end is the too_high bound, the lower end is the too_low bound, or
    0 for a kind without one. *)
Lemma sensor_ranges_are_thresholds (sensor : string) (lo hi : Z) :
  sensor_ranges !! sensor = Some (lo, hi) →
  ∃ entry high_message,
    warnings !! sensor = Some entry
    ∧ entry !! "too_high" = Some (hi, high_message)
    ∧ ((entry !! "too_low" = None ∧ lo = 0)
       ∨ ∃ low_message, entry !! "too_low" = Some (lo, low_message)).
Proof.
  intros Hrange.
  range_cases Hrange;
    (eexists _, _; split; [reflexivity|]; split; [reflexivity|];
     first [left; split; reflexivity | right; eexists; reflexivity]).
Qed.

(** X16.  The green band of the gauge is the range without warning: for a kind
    with good range [lo, hi] and a reading that is not negative, the
    threshold check reports "in range" exactly when lo <= reading <= hi. *)
Theorem gauge_green_is_in_range (sensor : string) (lo hi : Z) (x : Q) (unit : string) :
  sensor_ranges !! sensor = Some (lo, hi) →
  (0 <= x)%Q →
  ∃ text in_range,
    check_for_warnings sensor (PNum x) unit = Ok (text, in_range)
    ∧ (in_range = true ↔ (inject_Z lo <= x)%Q ∧ (x <= inject_Z hi)%Q).
Proof.
  intros Hrange Hx.
  destruct (sensor_ranges_are_thresholds _ _ _ Hrange)
    as (entry & high_message & Hentry & Hhigh & Hlow).
  unfold check_for_warnings.
  destruct (Qlt_le_dec x (inject_Z lo)) as [Hbelow|Hlo].
  - destruct Hlow as [[_ ->]|[low_message Hlow]].
    { exfalso. change (inject_Z 0) with 0%Q in Hbelow. lra. }
    eexists _, _. split; [by eapply check_low_breach|].
    split; [done|]. intros [? ?]. lra.
  - assert (∀ lo' m, entry !! "too_low" = Some (lo', m) → (inject_Z lo' <= x)%Q)
      as Hno_low.
    { intros lo' m Hl. destruct Hlow as [[Hnone _]|[low_message Hlow]];
        [congruence|]. rewrite Hlow in Hl. by injection Hl as <- _. }
    destruct (Qlt_le_dec (inject_Z hi) x) as [Habove|Hhi].
    + eexists _, _. split; [by eapply check_high_breach|].
      split; [done|]. intros [? ?]. lra.
    + eexists _, _. split.
      * eapply check_in_range; [done|done|].
        intros hi' m Hh. rewrite Hhigh in Hh. by injection Hh as <- _.
      * by split.
Qed.

Lemma gauge_green_is_in_range_witness :
  ∃ text in_range,
    check_for_warnings "Pressure" (PNum 1000) "hPa" = Ok (text, in_range)
    ∧ (in_range = true ↔ (inject_Z 980 <= 1000)%Q ∧ (1000 <= inject_Z 1030)%Q).
Proof.
  apply (gauge_green_is_in_range "Pressure" 980 1030 1000 "hPa").
  - reflexivity.
  - vm_compute. discriminate.
Defined.

End GaugeFacts.

(** ** The combined graph *)

Section GraphFacts.

(** X17.  The chart gets three aligned lists: when timestamps and values, and
    future times and predictions, come in equal numbers, the x axis and
    both series have one entry per reading plus one per prediction; over
    the readings the historical series carries the value and the prognosis
    series nothing, over the predictions it is the other way round. *)
Theorem display_combined_graph_aligned (timestamps : list Z) (values : list Q)
    (future_times : list Z) (predictions : list Q) :
  length timestamps = length values →
  length future_times = length predictions →
  let graph := display_combined_graph timestamps values future_times predictions in
  length (x_axis_combined graph) = (length values + length predictions)%nat
  ∧ length (combined_historical_data graph) = (length values + length predictions)%nat
  ∧ length (combined_prognosis_data graph) = (length values + length predictions)%nat
  ∧ (∀ i v, values !! i = Some v →
       combined_historical_data graph !! i = Some (Some v)
       ∧ combined_prognosis_data graph !! i = Some None)
  ∧ (∀ j p, predictions !! j = Some p →
       combined_historical_data graph !! (length values + j)%nat = Some None
       ∧ combined_prognosis_data graph !! (length values + j)%nat = Some (Some p)).
Proof.
  intros Hpast Hfuture graph. unfold graph, display_combined_graph. simpl.
  rewrite !length_app, !length_fmap, !length_replicate, Hpast, Hfuture.
  split; [done|]. split; [done|]. split; [lia|]. split.
  - intros i v Hv. pose proof (lookup_lt_Some _ _ _ Hv) as Hi. split.
    + rewrite lookup_app_l by (by rewrite length_fmap).
      by rewrite list_lookup_fmap, Hv.
    + rewrite lookup_app_l by (by rewrite length_replicate).
      by apply lookup_replicate_2.
  - intros j p Hp. pose proof (lookup_lt_Some _ _ _ Hp) as Hj. split.
    + rewrite lookup_app_r by (rewrite length_fmap; lia).
      rewrite length_fmap, Nat.add_comm, Nat.add_sub.
      by apply lookup_replicate_2.
    + rewrite lookup_app_r by (rewrite length_replicate; lia).
      rewrite length_replicate, Nat.add_comm, Nat.add_sub.
      by rewrite list_lookup_fmap, Hp.
Qed.

Lemma display_combined_graph_aligned_witness :
  combined_prognosis_data
    (display_combined_graph [0; 60000000] [400; 410]%Q [900000000] [420%Q])
    !! 2%nat = Some (Some 420%Q).
Proof.
  destruct (display_combined_graph_aligned
              [0; 60000000] [400; 410]%Q [900000000] [420%Q] eq_refl eq_refl)
    as (_ & _ & _ & _ & Hfuture).
  exact (proj2 (Hfuture 0%nat 420%Q eq_refl)).
Defined.

End GraphFacts.

(** ** The info streams *)

Section StreamFacts.

Lemma concat_chunks (words : list string) :
  words ≠ [] →
  String.concat "" ((λ word, word +:+ " ") <$> words) = join " " words +:+ " ".
Proof.
  induction words as [|w words IH]; [done|]. intros _.
  destruct words as [|w' words]; [done|].
  change (String.concat "" ((λ word, word +:+ " ") <$> w :: w' :: words))
    with ((w +:+ " ") +:+ "" +:+
          String.concat "" ((λ word, word +:+ " ") <$> w' :: words)).
  rewrite IH by done.
  change (join " " (w :: w' :: words)) with (w +:+ " " +:+ join " " (w' :: words)).
  by rewrite !append_assoc.
Qed.

(** X18.  Streaming loses nothing: the chunks that [stream_data] yields, put
    together, are the text followed by one space, whatever spaces the text
    has; and at least one chunk is yielded, also for an empty text. *)
Theorem stream_data_whole_text (text : string) :
  String.concat "" (stream_data text) = text +:+ " "
  ∧ stream_data text ≠ [].
Proof.
  unfold stream_data. split.
  - rewrite concat_chunks by apply split_nonempty. by rewrite join_split.
  - intros Hnil. apply fmap_nil_inv in Hnil. by apply split_nonempty in Hnil.
Qed.

End StreamFacts.

(** ** The training log *)

Section TrainingFacts.

Lemma store_all_cons state item (rest : list (submission * string)) :
  store_all state (item :: rest)
  = (next ← store_training_data state item.1 item.2; store_all next rest).
Proof.
  unfold store_all. cbn [foldl mbind result_bind].
  destruct (store_training_data state item.1 item.2) as [next|e]; [done|].
  induction rest as [|item' rest IH]; [done|]. exact IH.
Qed.

Lemma store_all_file (old : list (list cell)) (entries : list (submission * string)) :
  ∃ rows, length rows = length entries
    ∧ store_all (File old) entries = Ok (File (old ++ rows)).
Proof.
  revert old. induction entries as [|item rest IH]; intros old.
  - exists []. by rewrite app_nil_r.
  - rewrite store_all_cons. cbn [store_training_data mbind result_bind mret result_ret].
    destruct (IH (old ++ [(CValue <$> readings item.1)
                          ++ [CNumber (room_volume_of item.1); CText item.2;
                              CInt (label item.1)]]))
      as (rows & Hlen & ->).
    eexists (_ :: rows). split; [simpl; by rewrite Hlen|].
    by rewrite <- app_assoc.
Qed.

(** X19.  What a series of submissions leaves behind.  Without the directory
    [training_data] the first submission raises FileNotFoundError and
    nothing is written.  Otherwise the log is only ever extended: an
    existing file (even an empty one) holds its old rows followed by one
    row per submission, without a header of its own; a file that did not
    exist holds the header and then one row per submission. *)
Theorem store_training_data_log state (entries : list (submission * string)) :
  ∃ rows, length rows = length entries
    ∧ store_all state entries
      = match state, entries with
        | _, [] => Ok state
        | NoDirectory, _ => Raise FileNotFoundError
        | NoFile, _ => Ok (File (header :: rows))
        | File old, _ => Ok (File (old ++ rows))
        end.
Proof.
  destruct entries as [|item rest]; [exists []; by destruct state|].
  destruct state as [| |old].
  - exists (replicate (S (length rest)) []).
    split; [by rewrite length_replicate|]. by rewrite store_all_cons.
  - rewrite store_all_cons. cbn [store_training_data mbind result_bind mret result_ret].
    destruct (store_all_file
                ([] ++ [header] ++ [(CValue <$> readings item.1)
                          ++ [CNumber (room_volume_of item.1); CText item.2;
                              CInt (label item.1)]]) rest)
      as (rows & Hlen & Hrun).
    eexists (_ :: rows). split; [simpl; by rewrite Hlen|]. exact Hrun.
  - apply store_all_file.
Qed.

End TrainingFacts.

(** ** The value panel of [show_current_data] *)

Section PanelFacts.

Ltac here := repeat first [left; reflexivity | right].
Ltac absent H :=
  rewrite ?elem_of_cons, ?elem_of_nil in H;
  repeat (destruct H as [H|H]; [try discriminate H|]); try done.

(** On a number [check_for_warnings] always answers: either the in-range
    sentence, or the message of one tier of the table. *)
Lemma check_for_warnings_number sensor x unit :
  check_for_warnings sensor (PNum x) unit
  = Ok (sensor +:+ " value is within a comfortable range.", true)
  ∨ ∃ entry tier bound text,
      warnings !! sensor = Some entry ∧ entry !! tier = Some (bound, text)
      ∧ check_for_warnings sensor (PNum x) unit = Ok (text, false).
Proof.
  unfold check_for_warnings, check_for_warnings_in. simpl.
  destruct (warnings !! sensor) as [entry|] eqn:Hentry; [|by left].
  unfold low_breach.
  destruct (entry !! "too_low") as [[lo low_text]|] eqn:Hlow; simpl.
  - destruct (Qlt_bool x (inject_Z lo)); simpl.
    { right. by exists entry, "too_low", lo, low_text. }
    unfold high_breach.
    destruct (entry !! "too_high") as [[hi high_text]|] eqn:Hhigh; simpl;
      [|by left].
    destruct (Qlt_bool (inject_Z hi) x); simpl; [|by left].
    right. by exists entry, "too_high", hi, high_text.
  - unfold high_breach.
    destruct (entry !! "too_high") as [[hi high_text]|] eqn:Hhigh; simpl;
      [|by left].
    destruct (Qlt_bool (inject_Z hi) x); simpl; [|by left].
    right. by exists entry, "too_high", hi, high_text.
Qed.

(** No message of the table starts like a forecast warning. *)
Lemma tier_message_not_forecast sensor entry tier bound text later :
  warnings !! sensor = Some entry →
  entry !! tier = Some (bound, text) →
  text ≠ "In 15 minutes: " +:+ later.
Proof.
  intros Hentry Htier ->.
  unfold warnings in Hentry.
  repeat (apply lookup_insert_Some in Hentry as [[_ <-]|[_ Hentry]];
          [repeat (apply lookup_insert_Some in Htier as [[_ Htier]|[_ Htier]];
                   [discriminate Htier|]);
           by rewrite lookup_empty in Htier|]).
  by rewrite lookup_empty in Hentry.
Qed.

(** Nor does the in-range sentence of a kind that has an ideal value. *)
Lemma in_range_sentence_not_forecast sensor ideal later :
  ideal_values !! sensor = Some ideal →
  sensor +:+ " value is within a comfortable range."
  ≠ "In 15 minutes: " +:+ later.
Proof.
  intros Hideal Heq.
  apply dict_lookup_elem_of in Hideal.
  rewrite !elem_of_cons, elem_of_nil in Hideal.
  repeat (destruct Hideal as [Hideal|Hideal];
          [injection Hideal as -> ->; cbv in Heq; discriminate Heq|]).
  done.
Qed.

(** X20.  An [unknown] current value of a sensor other than Occupancy stops the
    panel: the comparison with the ideal value raises TypeError (KeyError
    when the kind has no ideal value), before [check_for_warnings], which
    would have answered, is reached. *)
Theorem show_current_data_panel_unknown sensor unit last predictions :
  sensor ≠ "Occupancy" →
  show_current_data_panel sensor (PStr "unknown") unit last predictions
  = Raise (if ideal_values !! sensor is Some _ then TypeError else KeyError).
Proof.
  intros Hsensor. unfold show_current_data_panel.
  rewrite (bool_decide_eq_false_2 (sensor = "Occupancy")) by done.
  simpl. unfold getitem.
  by destruct (ideal_values !! sensor).
Qed.

Lemma show_current_data_panel_unknown_witness :
  show_current_data_panel "CO2" (PStr "unknown") "ppm" 0%Q None
  = Raise TypeError.
Proof. by apply (show_current_data_panel_unknown "CO2" "ppm" 0%Q None). Defined.

(** X21.  With a numeric current value and a kind that has an ideal value the
    panel never raises.  It shows the in-range sentence as a success exactly
    when [check_for_warnings] finds the current value in range, and
    otherwise the breach message as a warning; a warning about the value in
    15 minutes appears only next to a success, and only when the first
    prediction is out of range. *)
Theorem show_current_data_panel_number sensor x unit last predictions :
  sensor ≠ "Occupancy" →
  is_Some (ideal_values !! sensor) →
  ∃ text in_range events,
    check_for_warnings sensor (PNum x) unit = Ok (text, in_range)
    ∧ show_current_data_panel sensor (PNum x) unit last predictions = Ok events
    ∧ (Success text ∈ events ↔ in_range = true)
    ∧ (Warning text ∈ events ↔ in_range = false)
    ∧ ∀ later, Warning ("In 15 minutes: " +:+ later) ∈ events →
        in_range = true
        ∧ ∃ p rest, predictions = Some (p :: rest)
            ∧ check_for_warnings sensor (PNum p) unit = Ok (later, false).
Proof.
  intros Hsensor [ideal Hideal]. unfold show_current_data_panel.
  rewrite (bool_decide_eq_false_2 (sensor = "Occupancy")) by done.
  simpl. unfold getitem. rewrite Hideal. simpl.
  pose proof (λ later, in_range_sentence_not_forecast sensor ideal later Hideal)
    as Hsentence.
  destruct (check_for_warnings_number sensor x unit)
    as [Hnow|(entry & tier & bound & text & Hentry & Htier & Hnow)];
    rewrite Hnow.
  - (* the current value is in range *)
    assert (∀ p, first_prediction predictions = Some p →
                 ∃ rest, predictions = Some (p :: rest)) as Hfirst.
    { destruct predictions as [[|q rest]|]; intros p [= <-]. by exists rest. }
    destruct (first_prediction predictions) as [p|]; simpl;
      [|eexists _, true, _; split; [done|]; split; [done|];
        rewrite !elem_of_cons, !elem_of_nil;
        split; [split; [done|intros _; here]|];
        split; [split; [intros Hin; absent Hin|done]|];
        intros later Hin; absent Hin].
    destruct (Hfirst p eq_refl) as [rest ->].
    destruct (check_for_warnings_number sensor p unit)
      as [Hp|(entry & tier & bound & later & Hentry & Htier & Hp)];
      rewrite Hp; simpl;
      eexists _, true, _; (split; [done|]); (split; [done|]);
      rewrite !elem_of_cons, !elem_of_nil;
      (split; [split; [done|intros _; here]|]).
    + split; [split; [intros Hin; absent Hin|done]|].
      intros later Hin; absent Hin.
    + split.
      * split; [|done]. intros Hin. absent Hin.
        injection Hin as Hin. by apply Hsentence in Hin.
      * intros later' Hin. absent Hin.
        injection Hin as Hin. apply (inj (String.append _)) in Hin as ->.
        split; [done|]. by exists p, rest.
  - (* the current value breaches a tier *)
    pose proof (λ later, tier_message_not_forecast _ _ _ _ _ later Hentry Htier)
      as Hmessage.
    simpl.
    destruct (first_prediction predictions) as [p|]; simpl;
      (eexists _, false, _; split; [done|]; split; [done|];
       rewrite !elem_of_cons, !elem_of_nil;
       split; [split; [intros Hin; absent Hin|done]|];
       split; [split; [done|intros _; here]|];
       intros later Hin; absent Hin;
       injection Hin as Hin; symmetry in Hin; by apply Hmessage in Hin).
Qed.

Lemma show_current_data_panel_number_witness :
  ∃ text in_range events,
    check_for_warnings "CO2" (PNum 900) "ppm" = Ok (text, in_range)
    ∧ show_current_data_panel "CO2" (PNum 900) "ppm" 880 (Some [1010%Q; 1100%Q])
      = Ok events
    ∧ (Success text ∈ events ↔ in_range = true)
    ∧ (Warning text ∈ events ↔ in_range = false)
    ∧ ∀ later, Warning ("In 15 minutes: " +:+ later) ∈ events →
        in_range = true
        ∧ ∃ p rest, Some [1010%Q; 1100%Q] = Some (p :: rest)
            ∧ check_for_warnings "CO2" (PNum p) "ppm" = Ok (later, false).
Proof.
  apply (show_current_data_panel_number "CO2" 900 "ppm" 880
           (Some [1010%Q; 1100%Q])).
  - discriminate.
  - by eexists.
Defined.

Lemma display_historyic_graph_undefined :
  "display_historyic_graph" ∉ Dashboard_methods.
Proof. intros Hin. unfold Dashboard_methods in Hin. absent Hin. Qed.

Lemma display_combined_graph_defined :
  "display_combined_graph" ∈ Dashboard_methods.
Proof. unfold Dashboard_methods. rewrite !elem_of_cons. here. Qed.

(** X22.  The graph below the panel: the method that [show_current_data] looks up
    is one that the class defines exactly when the sensor is not the
    microphone and both a non-empty list of predictions and a non-empty list
    of forecast instants exist.  In every other case the name looked up,
    [display_historyic_graph], is no method of the class (the class defines
    [display_historical_graph]). *)
Theorem graph_method_defined sensor predictions future_times :
  graph_method sensor predictions future_times ∈ Dashboard_methods
  ↔ sensor ≠ "Microphone Noise Level"
    ∧ (∃ p rest, predictions = Some (p :: rest))
    ∧ (∃ t rest, future_times = Some (t :: rest)).
Proof.
  pose proof display_historyic_graph_undefined as Hundefined.
  pose proof display_combined_graph_defined as Hdefined.
  unfold graph_method.
  destruct (bool_decide_reflect (sensor = "Microphone Noise Level")) as [->|Hkind];
    simpl.
  { split; [done|by intros [[] _]]. }
  destruct predictions as [[|p ps]|], future_times as [[|t ts]|]; simpl;
    try (split; [done|by intros (_ & (? & ? & ?) & (? & ? & ?))]).
  split; [|done].
  intros _. split; [done|]. split; eauto.
Qed.

End PanelFacts.
